(** * Event dispatch and partial-failure handling of the startup platform

    A shallow embedding of [lambda_handler.py] (the event-driven function) and
    of the list and create operations of [app_flask.py] (the REST service), with
    the properties their specification states about them.

    The Python code is dynamically typed and talks to managed services, so the
    development has three layers:
    - [Py]: the fragment of Python's value semantics the handlers rely on
      (membership, subscripting, [dict.get], iteration, truthiness, [int()],
      [json.dumps]), with the exceptions CPython 3.11 raises (the runtime the
      deployment notes of the handler name);
    - [Effects]: the collaborators (store, metrics, notifications, clock,
      environment) as oracles over the history of calls, and a state-and-
      exception monad in which an exception keeps the effects done before it;
    - [LambdaHandler] and [AppFlask]: the handlers, written statement by
      statement after the source. *)

From Stdlib Require Import ZArith String Ascii DecimalString List Bool Lia.
Import ListNotations.

#[local] Set Warnings "-register-all".
#[local] Open Scope string_scope.
#[local] Open Scope Z_scope.

(* ===================================================================== *)
(** * Python values and the operations the handlers apply to them *)
(* ===================================================================== *)

Module Py.

(** The values an event, a store item or a response body is made of: what
    [json.loads] produces (numbers are kept as integers: a JSON float behaves
    as an integer does under every operation below), plus [decimal.Decimal],
    the type in which the store's resource API returns numbers and which
    [json.dumps] refuses.  A dict is an association list with string keys;
    the first binding of a key is the visible one. *)
Inductive pyval : Type :=
| PNone
| PBool (b : bool)
| PInt (n : Z)
| PDecimal (coefficient exponent : Z)
| PStr (s : string)
| PList (items : list pyval)
| PDict (entries : list (string * pyval)).

(** Subclasses of [Exception] that occur: the built-in ones raised by the
    operations below, botocore's [ClientError], and any other class a
    collaborator may raise (connection errors, parameter validation, ...). *)
Inductive exn_class : Type :=
| KeyError
| IndexError
| TypeError
| AttributeError
| ValueError
| ClientError
| OtherException (class_name : string).

(** An exception: its class, [str(e)], and for a [ClientError] its
    [e.response] ([PNone] for the other classes, which have none). *)
Record exn : Type := mkExn {
  exn_class_of : exn_class;
  exn_text : string;
  exn_response : pyval
}.

Inductive result (A : Type) : Type :=
| Ok (a : A)
| Raise (e : exn).
Arguments Ok {A} a.
Arguments Raise {A} e.

Definition is_ok {A} (r : result A) : bool :=
  match r with Ok _ => true | Raise _ => false end.

Definition raises {A} (r : result A) : bool := negb (is_ok r).

Definition rbind {A B} (r : result A) (f : A -> result B) : result B :=
  match r with Ok a => f a | Raise e => Raise e end.

Definition builtin_error (c : exn_class) (text : string) : exn :=
  mkExn c text PNone.

Definition is_client_error (e : exn) : bool :=
  match exn_class_of e with ClientError => true | _ => false end.

(** [type(v).__name__] as it appears in CPython's messages. *)
Definition type_name (v : pyval) : string :=
  match v with
  | PNone => "NoneType"
  | PBool _ => "bool"
  | PInt _ => "int"
  | PDecimal _ _ => "decimal.Decimal"
  | PStr _ => "str"
  | PList _ => "list"
  | PDict _ => "dict"
  end.

(** [bool(v)]. *)
Definition truthy (v : pyval) : bool :=
  match v with
  | PNone => false
  | PBool b => b
  | PInt n => negb (n =? 0)
  | PDecimal c _ => negb (c =? 0)
  | PStr s => negb (String.eqb s "")
  | PList l => match l with [] => false | _ :: _ => true end
  | PDict d => match d with [] => false | _ :: _ => true end
  end.

(** [v == s] for a string literal [s]: only an equal [str] compares equal. *)
Definition py_eq_str (v : pyval) (s : string) : bool :=
  match v with
  | PStr t => String.eqb t s
  | _ => false
  end.

Fixpoint lookup (k : string) (d : list (string * pyval)) : option pyval :=
  match d with
  | [] => None
  | (k', v) :: rest => if String.eqb k k' then Some v else lookup k rest
  end.

(** [needle in hay] on two strings. *)
Fixpoint substring_in (needle hay : string) : bool :=
  String.prefix needle hay
  || match hay with
     | EmptyString => false
     | String _ rest => substring_in needle rest
     end.

Definition hex_digit (n : nat) : ascii :=
  match n with
  | 0 => "0" | 1 => "1" | 2 => "2" | 3 => "3" | 4 => "4" | 5 => "5"
  | 6 => "6" | 7 => "7" | 8 => "8" | 9 => "9" | 10 => "a" | 11 => "b"
  | 12 => "c" | 13 => "d" | 14 => "e" | _ => "f"
  end%char%nat.

Definition squote : ascii := ascii_of_nat 39.
Definition dquote : ascii := ascii_of_nat 34.
Definition backslash : ascii := ascii_of_nat 92.

Definition has_char (c : ascii) (s : string) : bool :=
  existsb (Ascii.eqb c) (list_ascii_of_string s).

(** [repr(s)] of a string: single quotes unless the string has one and no
    double quote; backslash, the chosen quote and control characters escaped.
    Bytes above 127 are kept (the text of printable non-ASCII characters). *)
Definition repr_char (quote c : ascii) : string :=
  let n := nat_of_ascii c in
  if Ascii.eqb c backslash then String backslash (String backslash "")
  else if Ascii.eqb c quote then String backslash (String c "")
  else if Nat.eqb n 9 then String backslash "t"
  else if Nat.eqb n 10 then String backslash "n"
  else if Nat.eqb n 13 then String backslash "r"
  else if (Nat.ltb n 32 || Nat.eqb n 127)%bool then
    String backslash (String "x"%char
      (String (hex_digit (Nat.div n 16)) (String (hex_digit (Nat.modulo n 16)) "")))
  else String c "".

Definition py_repr (s : string) : string :=
  let quote :=
    if (has_char squote s && negb (has_char dquote s))%bool
    then dquote else squote in
  String quote
    (String.concat "" (map (repr_char quote) (list_ascii_of_string s))
     ++ String quote "").

(** [key in v]. *)
Definition contains (key : string) (v : pyval) : result bool :=
  match v with
  | PDict d => Ok (match lookup key d with Some _ => true | None => false end)
  | PList l => Ok (existsb (fun x => py_eq_str x key) l)
  | PStr s => Ok (substring_in key s)
  | _ => Raise (builtin_error TypeError
                  ("argument of type '" ++ type_name v ++ "' is not iterable"))
  end.

Definition not_subscriptable (v : pyval) : exn :=
  builtin_error TypeError ("'" ++ type_name v ++ "' object is not subscriptable").

(** [v[key]] for a string key. *)
Definition getitem (v : pyval) (key : string) : result pyval :=
  match v with
  | PDict d =>
      match lookup key d with
      | Some x => Ok x
      | None => Raise (builtin_error KeyError (py_repr key))
      end
  | PList _ =>
      Raise (builtin_error TypeError "list indices must be integers or slices, not str")
  | PStr _ =>
      Raise (builtin_error TypeError "string indices must be integers, not 'str'")
  | _ => Raise (not_subscriptable v)
  end.

(** [v[0]].  The keys of a dict are strings, so [0] is never one of them. *)
Definition getitem0 (v : pyval) : result pyval :=
  match v with
  | PList (x :: _) => Ok x
  | PList [] => Raise (builtin_error IndexError "list index out of range")
  | PStr (String c _) => Ok (PStr (String c ""))
  | PStr EmptyString => Raise (builtin_error IndexError "string index out of range")
  | PDict _ => Raise (builtin_error KeyError "0")
  | _ => Raise (not_subscriptable v)
  end.

Definition no_attribute (v : pyval) (attr : string) : exn :=
  builtin_error AttributeError
    ("'" ++ type_name v ++ "' object has no attribute '" ++ attr ++ "'").

(** [v.get(key, default)]. *)
Definition py_get (v : pyval) (key : string) (default : pyval) : result pyval :=
  match v with
  | PDict d => Ok (match lookup key d with Some x => x | None => default end)
  | _ => Raise (no_attribute v "get")
  end.

(** The elements a [for] loop over [v] visits. *)
Definition py_iter (v : pyval) : result (list pyval) :=
  match v with
  | PList l => Ok l
  | PDict d => Ok (map (fun kv => PStr (fst kv)) d)
  | PStr s => Ok (map (fun c => PStr (String c "")) (list_ascii_of_string s))
  | _ => Raise (builtin_error TypeError
                  ("'" ++ type_name v ++ "' object is not iterable"))
  end.

(** [len(v)]. *)
Definition py_len (v : pyval) : result Z :=
  match v with
  | PList l => Ok (Z.of_nat (List.length l))
  | PDict d => Ok (Z.of_nat (List.length d))
  | PStr s => Ok (Z.of_nat (String.length s))
  | _ => Raise (builtin_error TypeError
                  ("object of type '" ++ type_name v ++ "' has no len()"))
  end.

(** [v.replace('/', '-')]: every slash of a string becomes a dash. *)
Definition replace_slash (s : string) : string :=
  string_of_list_ascii
    (map (fun c => if Ascii.eqb c "/"%char then "-"%char else c)
         (list_ascii_of_string s)).

Definition py_replace_slash (v : pyval) : result string :=
  match v with
  | PStr s => Ok (replace_slash s)
  | _ => Raise (no_attribute v "replace")
  end.

(** [json.dumps(v)] raises [TypeError] on a [Decimal] anywhere in [v]. *)
Fixpoint json_serializable (v : pyval) : bool :=
  match v with
  | PDecimal _ _ => false
  | PList l => forallb json_serializable l
  | PDict d => forallb (fun kv => json_serializable (snd kv)) d
  | _ => true
  end.

(** The body of a response is the text [json.dumps(v)]; the model keeps [v],
    which determines that text, so that bodies can be compared by field. *)
Definition json_dumps (v : pyval) : result pyval :=
  if json_serializable v then Ok v
  else Raise (builtin_error TypeError "Object of type Decimal is not JSON serializable").

(** ** [int(s)] on a string

    CPython skips leading whitespace and one sign, reads the longest run of
    digits and single underscores between digits, refuses a run of more than
    4300 digits (the default of [sys.set_int_max_str_digits]), and then
    accepts nothing but whitespace.  The characters are ASCII: the non-ASCII
    digits and spaces [int] also takes are outside the model. *)
Definition is_space (c : ascii) : bool :=
  let n := nat_of_ascii c in
  (Nat.eqb n 32 || (Nat.leb 9 n && Nat.leb n 13))%bool.

Definition digit_value (c : ascii) : option Z :=
  let n := nat_of_ascii c in
  if (Nat.leb 48 n && Nat.leb n 57)%bool then Some (Z.of_nat (n - 48)) else None.

Fixpoint lstrip (l : list ascii) : list ascii :=
  match l with
  | c :: rest => if is_space c then lstrip rest else l
  | [] => []
  end.

(** [scan_digits acc count after_digit l]: the value and the number of digits
    read so far, and whether the previous character was a digit (an
    underscore is only legal there, and the run must end on a digit).  The
    answer is the value, the digit count and what follows the run. *)
Fixpoint scan_digits (acc : Z) (count : nat) (after_digit : bool) (l : list ascii)
  : option (Z * nat * list ascii) :=
  match l with
  | [] => if after_digit then Some (acc, count, []) else None
  | c :: rest =>
      match digit_value c with
      | Some d => scan_digits (10 * acc + d) (S count) true rest
      | None =>
          if Ascii.eqb c "_"%char then
            if after_digit then scan_digits acc count false rest else None
          else if after_digit then Some (acc, count, l) else None
      end
  end.

Inductive int_literal : Type :=
| IntValue (n : Z)
| IntInvalid
| IntTooLong (digits : nat).

Definition max_str_digits : nat := 4300.

Definition parse_int (l : list ascii) : int_literal :=
  let unsigned (negative : bool) (l' : list ascii) :=
    match scan_digits 0 0 false l' with
    | None => IntInvalid
    | Some (v, count, rest) =>
        if Nat.ltb max_str_digits count then IntTooLong count
        else match lstrip rest with
             | [] => IntValue (if negative then - v else v)
             | _ :: _ => IntInvalid
             end
    end in
  match lstrip l with
  | c :: rest =>
      if Ascii.eqb c "-"%char then unsigned true rest
      else if Ascii.eqb c "+"%char then unsigned false rest
      else unsigned false (c :: rest)
  | [] => IntInvalid
  end.

Definition py_int (s : string) : result Z :=
  match parse_int (list_ascii_of_string s) with
  | IntValue n => Ok n
  | IntInvalid =>
      Raise (builtin_error ValueError
               ("invalid literal for int() with base 10: " ++ py_repr s))
  | IntTooLong count =>
      Raise (builtin_error ValueError
               ("Exceeds the limit (4300 digits) for integer string conversion: value has "
                ++ NilEmpty.string_of_uint (Nat.to_uint count)
                ++ " digits; use sys.set_int_max_str_digits() to increase the limit"))
  end.

End Py.

(* ===================================================================== *)
(** * Collaborators and the monad of the handlers *)
(* ===================================================================== *)

Module Effects.
Import Py.

(** A reading of [datetime.utcnow()], with the two renderings the handlers
    take of it: [int(dt.timestamp() * 1000)] and [dt.isoformat()]. *)
Record datetime : Type := mkDatetime {
  dt_epoch_ms : Z;
  dt_isoformat : string
}.

(** An f-string: its literal text with [{}] for each interpolation, and the
    interpolated values in order. *)
Record fstring : Type := FString {
  fs_template : string;
  fs_values : list pyval
}.

(** The calls a handler makes on the outside world. *)
Inductive call : Type :=
| Scan (kwargs : list (string * pyval))
| PutItem (item : pyval)
| DeleteItem (key : pyval)
| PutMetricData (namespace metric_name : string) (value : Z)
                (unit : string) (timestamp : datetime)
| Publish (topic_arn subject : string) (message : fstring)
| UtcNow.

Inductive level : Type := INFO | WARNING | ERROR.

(** The outside world of one invocation.  Each collaborator answers a call
    as a function of the calls made before it, which covers every sequence
    of answers a run can meet; the process environment is fixed. *)
Record world : Type := mkWorld {
  table_scan : list call -> list (string * pyval) -> result pyval;
  table_put_item : list call -> pyval -> result pyval;
  table_delete_item : list call -> pyval -> result pyval;
  cloudwatch_put_metric_data :
    list call -> string -> string -> Z -> string -> datetime -> result pyval;
  sns_publish : list call -> string -> string -> fstring -> result pyval;
  clock : list call -> datetime;
  getenv : string -> option string;
  type_deserialize : pyval -> result pyval
}.

(** What an invocation has done so far: the calls, oldest first, and the
    records handed to the logger. *)
Record state : Type := mkState {
  history : list call;
  logged : list (level * fstring)
}.

Definition initial : state := mkState [] [].

(** A computation may raise; the effects done before the exception stay. *)
Definition M (A : Type) : Type := state -> result A * state.

Definition ret {A} (a : A) : M A := fun s => (Ok a, s).

Definition bind {A B} (m : M A) (f : A -> M B) : M B :=
  fun s =>
    match m s with
    | (Ok a, s') => f a s'
    | (Raise e, s') => (Raise e, s')
    end.

Definition lift {A} (r : result A) : M A := fun s => (r, s).

(** [try: body / except Exception as e: handler]. *)
Definition try_except {A} (body : M A) (handler : exn -> M A) : M A :=
  fun s =>
    match body s with
    | (Ok a, s') => (Ok a, s')
    | (Raise e, s') => handler e s'
    end.

(** [try: body / except ClientError as e: handler]: any other class goes on
    to the caller. *)
Definition try_except_ClientError {A} (body : M A) (handler : exn -> M A) : M A :=
  fun s =>
    match body s with
    | (Ok a, s') => (Ok a, s')
    | (Raise e, s') => if is_client_error e then handler e s' else (Raise e, s')
    end.

Definition perform {A} (c : call) (answer : list call -> result A) : M A :=
  fun s => (answer (history s), mkState (history s ++ [c]) (logged s)).

Definition log (l : level) (template : string) (values : list pyval) : M unit :=
  fun s => (Ok tt, mkState (history s) (logged s ++ [(l, FString template values)])).

Definition outcome {A} (r : result A * state) : result A := fst r.
Definition final {A} (r : result A * state) : state := snd r.

(** The calls of a history that reach the store's delete, put and scan. *)
Definition deletes (h : list call) : list pyval :=
  flat_map (fun c => match c with DeleteItem k => [k] | _ => [] end) h.

Definition puts (h : list call) : list pyval :=
  flat_map (fun c => match c with PutItem i => [i] | _ => [] end) h.

Definition scans (h : list call) : list (list (string * pyval)) :=
  flat_map (fun c => match c with Scan kw => [kw] | _ => [] end) h.

(** The metrics a history has sent, as (namespace, name, value), and the
    notifications it has published. *)
Definition metrics (h : list call) : list (string * string * Z) :=
  flat_map (fun c => match c with
                     | PutMetricData ns name value _ _ => [(ns, name, value)]
                     | _ => []
                     end) h.

Definition publishes (h : list call) : list fstring :=
  flat_map (fun c => match c with Publish _ _ m => [m] | _ => [] end) h.

(** The calls of a history that reach the store at all. *)
Definition store_calls (h : list call) : list call :=
  filter (fun c => match c with
                   | Scan _ | PutItem _ | DeleteItem _ => true
                   | _ => false
                   end) h.

End Effects.

Declare Scope py_scope.
Delimit Scope py_scope with py.
Notation "x <- m ;; k" := (Effects.bind m (fun x => k))
  (at level 100, m at next level, right associativity) : py_scope.
Notation "m ;; k" := (Effects.bind m (fun _ => k))
  (at level 100, right associativity) : py_scope.

(* ===================================================================== *)
(** * lambda_handler.py *)
(* ===================================================================== *)

Module LambdaHandler.
Import Py Effects.
#[local] Open Scope py_scope.

(** The response of every handler.  [headers] is present in one response
    only; [body] is the value given to [json.dumps]. *)
Record envelope : Type := mkEnvelope {
  statusCode : Z;
  headers : option (list (string * string));
  body : pyval
}.

(** The runtime context: its class and the attributes it has. *)
Record context : Type := mkContext {
  context_class : string;
  context_attrs : list (string * pyval)
}.

Definition getattr (c : context) (name : string) : result pyval :=
  match lookup name (context_attrs c) with
  | Some v => Ok v
  | None => Raise (builtin_error AttributeError
                     ("'" ++ context_class c ++ "' object has no attribute '"
                      ++ name ++ "'"))
  end.

(** ** determine_event_source

    The two tests on the first record sit inside [if 'Records' in event:], so
    an event with that key never reaches the [elif] branches below it. *)
Definition determine_event_source (event : pyval) : result string :=
  rbind (contains "Records" event) (fun has_records =>
  if has_records then
    rbind (getitem event "Records") (fun records =>
    rbind (if truthy records
           then rbind (getitem0 records) (contains "dynamodb")
           else Ok false) (fun is_stream =>
    if is_stream then Ok "dynamodb"
    else
      rbind (getitem event "Records") (fun records' =>
      rbind (if truthy records'
             then rbind (getitem0 records') (contains "s3")
             else Ok false) (fun is_s3 =>
      if is_s3 then Ok "s3" else Ok "unknown"))))
  else
    rbind (contains "httpMethod" event) (fun has_method =>
    rbind (if has_method then contains "path" event else Ok false) (fun is_http =>
    if is_http then Ok "api_gateway"
    else
      rbind (contains "source" event) (fun has_source =>
      rbind (if has_source
             then rbind (getitem event "source")
                        (fun v => Ok (py_eq_str v "aws.events"))
             else Ok false) (fun is_scheduled =>
      if is_scheduled then Ok "cloudwatch_events" else Ok "unknown"))))).

Definition source_tags : list string :=
  ["dynamodb"; "s3"; "api_gateway"; "cloudwatch_events"; "unknown"].

Section Handlers.

Variable W : world.

(** The collaborator calls, each recorded in the history. *)
Definition utcnow : M datetime :=
  perform UtcNow (fun h => Ok (clock W h)).

Definition scan (kwargs : list (string * pyval)) : M pyval :=
  perform (Scan kwargs) (fun h => table_scan W h kwargs).

Definition put_item (item : pyval) : M pyval :=
  perform (PutItem item) (fun h => table_put_item W h item).

Definition delete_item (key : pyval) : M pyval :=
  perform (DeleteItem key) (fun h => table_delete_item W h key).

Definition put_metric_data (namespace metric_name : string) (value : Z)
    (unit : string) (timestamp : datetime) : M pyval :=
  perform (PutMetricData namespace metric_name value unit timestamp)
          (fun h => cloudwatch_put_metric_data W h namespace metric_name value
                      unit timestamp).

Definition publish (topic_arn subject : string) (message : fstring) : M pyval :=
  perform (Publish topic_arn subject message)
          (fun h => sns_publish W h topic_arn subject message).

(** ** deserialize_dynamodb_item

    [{k: deserializer.deserialize(v) for k, v in item.items()}], with the
    store library's [TypeDeserializer.deserialize] taken from the world. *)
Fixpoint deserialize_entries (entries : list (string * pyval))
  : result (list (string * pyval)) :=
  match entries with
  | [] => Ok []
  | (k, v) :: rest =>
      rbind (type_deserialize W v) (fun v' =>
      rbind (deserialize_entries rest) (fun rest' => Ok ((k, v') :: rest')))
  end.

Definition deserialize_dynamodb_item (item : pyval) : result pyval :=
  match item with
  | PDict entries => rbind (deserialize_entries entries) (fun d => Ok (PDict d))
  | _ => Raise (no_attribute item "items")
  end.

(** ** publish_metric *)
Definition publish_metric (metric_name : string) (value : Z) : M unit :=
  try_except
    (now <- utcnow ;;
     put_metric_data "Lambda/Processing" metric_name value "Count" now ;;
     ret tt)
    (fun e => log WARNING "Failed to publish metric: {}" [PStr (exn_text e)]).

(** ** send_notification *)
Definition send_notification (message : fstring) : M unit :=
  match getenv W "SNS_TOPIC_ARN" with
  | Some (String c arn) =>
      try_except
        (publish (String c arn) "Lambda Notification" message ;;
         log INFO "Notification sent: {}" (fs_values message))
        (fun e => log ERROR "Failed to send notification: {}" [PStr (exn_text e)])
  | _ => log WARNING "SNS_TOPIC_ARN not configured, skipping notification" []
  end.

(** ** process_dynamodb_stream *)

(** The body of the [try] of one loop turn. *)
Definition stream_record (record : pyval) : M unit :=
  event_name <- lift (getitem record "eventName") ;;
  log INFO "Processing DynamoDB {} event" [event_name] ;;
  keys <- lift (rbind (getitem record "dynamodb")
                      (fun d => py_get d "Keys" (PDict []))) ;;
  new_image <- lift (rbind (getitem record "dynamodb")
                           (fun d => py_get d "NewImage" (PDict []))) ;;
  old_image <- lift (rbind (getitem record "dynamodb")
                           (fun d => py_get d "OldImage" (PDict []))) ;;
  (if py_eq_str event_name "INSERT" then
     item <- lift (deserialize_dynamodb_item keys) ;;
     log INFO "New item created: {}" [item]
   else if py_eq_str event_name "MODIFY" then
     item <- lift (deserialize_dynamodb_item keys) ;;
     log INFO "Item modified: {}" [item]
   else if py_eq_str event_name "REMOVE" then
     item <- lift (deserialize_dynamodb_item keys) ;;
     log INFO "Item deleted: {}" [item]
   else ret tt) ;;
  notify <- lift (if py_eq_str event_name "INSERT"
                  then contains "user_id" new_image else Ok false) ;;
  if notify : bool then
    user <- lift (rbind (getitem new_image "user_id") (fun u => getitem u "S")) ;;
    send_notification (FString "New user registered: {}" [user])
  else ret tt.

(** The loop, with the two counters it carries: a record whose turn raises
    is counted as failed and the loop goes on. *)
Fixpoint stream_loop (records : list pyval) (processed_count failed_count : Z)
  : M (Z * Z) :=
  match records with
  | [] => ret (processed_count, failed_count)
  | record :: rest =>
      counts <- try_except
                  (stream_record record ;;
                   ret (processed_count + 1, failed_count))
                  (fun e =>
                     log ERROR "Failed to process record: {}" [PStr (exn_text e)] ;;
                     ret (processed_count, failed_count + 1)) ;;
      stream_loop rest (fst counts) (snd counts)
  end.

Definition process_dynamodb_stream (event : pyval) (context : context)
  : M envelope :=
  records <- lift (rbind (py_get event "Records" (PList [])) py_iter) ;;
  counts <- stream_loop records 0 0 ;;
  let processed_count := fst counts in
  let failed_count := snd counts in
  publish_metric "StreamRecordsProcessed" processed_count ;;
  (if 0 <? failed_count
   then publish_metric "StreamRecordsFailed" failed_count
   else ret tt) ;;
  log INFO "Processed {} records, {} failures"
      [PInt processed_count; PInt failed_count] ;;
  body <- lift (json_dumps (PDict [("processed", PInt processed_count);
                                   ("failed", PInt failed_count)])) ;;
  ret (mkEnvelope 200 None body).

(** ** process_api_gateway_request *)
Definition process_api_gateway_request (event : pyval) (context : context)
  : M envelope :=
  method <- lift (py_get event "httpMethod" (PStr "GET")) ;;
  path <- lift (py_get event "path" (PStr "/")) ;;
  log INFO "API Gateway request: {} {}" [method; path] ;;
  if (py_eq_str method "GET" && py_eq_str path "/items")%bool then
    try_except_ClientError
      (response <- scan [("Limit", PInt 10)] ;;
       items <- lift (py_get response "Items" (PList [])) ;;
       body <- lift (json_dumps (PDict [("items", items)])) ;;
       ret (mkEnvelope 200 (Some [("Content-Type", "application/json")]) body))
      (fun e =>
         log ERROR "DynamoDB error: {}" [PStr (exn_text e)] ;;
         body <- lift (json_dumps (PDict [("error", PStr "Database error")])) ;;
         ret (mkEnvelope 500 None body))
  else
    body <- lift (json_dumps (PDict [("error", PStr "Not found")])) ;;
    ret (mkEnvelope 404 None body).

(** ** process_scheduled_task *)

(** [{'id': item['id'], 'timestamp': item['timestamp']}]. *)
Definition item_key (item : pyval) : result pyval :=
  rbind (getitem item "id") (fun id =>
  rbind (getitem item "timestamp") (fun timestamp =>
  Ok (PDict [("id", id); ("timestamp", timestamp)]))).

(** One turn of the deletion loop: the key is built from the item, then the
    store is called. *)
Definition delete_expired (item : pyval) : M pyval :=
  key <- lift (item_key item) ;;
  delete_item key.

(** The loop has no [try] of its own: a turn that raises ends it. *)
Fixpoint delete_loop (items : list pyval) (deleted_count : Z) : M Z :=
  match items with
  | [] => ret deleted_count
  | item :: rest =>
      delete_expired item ;;
      delete_loop rest (deleted_count + 1)
  end.

Definition expired_filter (current_timestamp : Z) : list (string * pyval) :=
  [("FilterExpression", PStr "expiration_time < :now");
   ("ExpressionAttributeValues", PDict [(":now", PInt current_timestamp)])].

Definition process_scheduled_task (event : pyval) (context : context)
  : M envelope :=
  log INFO "Executing scheduled task" [] ;;
  try_except
    (now <- utcnow ;;
     let current_timestamp := dt_epoch_ms now in
     response <- scan (expired_filter current_timestamp) ;;
     items <- lift (rbind (py_get response "Items" (PList [])) py_iter) ;;
     deleted_count <- delete_loop items 0 ;;
     log INFO "Deleted {} expired items" [PInt deleted_count] ;;
     publish_metric "ExpiredItemsDeleted" deleted_count ;;
     body <- lift (json_dumps (PDict [("deleted", PInt deleted_count)])) ;;
     ret (mkEnvelope 200 None body))
    (fun e =>
       log ERROR "Cleanup task failed: {}" [PStr (exn_text e)] ;;
       body <- lift (json_dumps (PDict [("error", PStr (exn_text e))])) ;;
       ret (mkEnvelope 500 None body)).

(** ** process_s3_event *)

(** The item stored for one object; the clock is read once for [timestamp]
    and once for [uploaded_at]. *)
Definition store_metadata (bucket key : pyval) : M pyval :=
  dashed <- lift (py_replace_slash key) ;;
  t1 <- utcnow ;;
  t2 <- utcnow ;;
  put_item (PDict [("id", PStr ("s3-" ++ dashed));
                   ("timestamp", PInt (dt_epoch_ms t1));
                   ("type", PStr "file_upload");
                   ("bucket", bucket);
                   ("key", key);
                   ("uploaded_at", PStr (dt_isoformat t2))]).

(** One loop turn: the two subscript chains stand before the [try], and the
    [try] catches [ClientError] only. *)
Definition s3_record (record : pyval) : M unit :=
  bucket <- lift (rbind (getitem record "s3") (fun s3 =>
                  rbind (getitem s3 "bucket") (fun b => getitem b "name"))) ;;
  key <- lift (rbind (getitem record "s3") (fun s3 =>
               rbind (getitem s3 "object") (fun o => getitem o "key"))) ;;
  log INFO "Processing S3 object: s3://{}/{}" [bucket; key] ;;
  try_except_ClientError
    (store_metadata bucket key ;; ret tt)
    (fun e => log ERROR "Failed to store metadata: {}" [PStr (exn_text e)]).

Fixpoint s3_loop (records : list pyval) : M unit :=
  match records with
  | [] => ret tt
  | record :: rest => s3_record record ;; s3_loop rest
  end.

Definition process_s3_event (event : pyval) (context : context) : M envelope :=
  records <- lift (rbind (py_get event "Records" (PList [])) py_iter) ;;
  s3_loop records ;;
  count <- lift (rbind (py_get event "Records" (PList [])) py_len) ;;
  body <- lift (json_dumps (PDict [("processed", PInt count)])) ;;
  ret (mkEnvelope 200 None body).

(** ** lambda_handler *)

(** The body of the [try]: classification, then the handler it selects. *)
Definition dispatch (event : pyval) (context : context) : M envelope :=
  event_source <- lift (determine_event_source event) ;;
  if String.eqb event_source "dynamodb" then
    process_dynamodb_stream event context
  else if String.eqb event_source "api_gateway" then
    process_api_gateway_request event context
  else if String.eqb event_source "cloudwatch_events" then
    process_scheduled_task event context
  else if String.eqb event_source "s3" then
    process_s3_event event context
  else
    log WARNING "Unknown event source: {}" [PStr event_source] ;;
    body <- lift (json_dumps (PDict [("error", PStr "Unknown event source")])) ;;
    ret (mkEnvelope 400 None body).

(** The two log lines stand before the [try]: what they raise reaches the
    caller. *)
Definition lambda_handler (event : pyval) (context : context) : M envelope :=
  request_id <- lift (getattr context "request_id") ;;
  log INFO "Lambda invoked. Request ID: {}" [request_id] ;;
  source <- lift (determine_event_source event) ;;
  log INFO "Event source: {}" [PStr source] ;;
  try_except
    (dispatch event context)
    (fun e =>
       log ERROR "Error processing event: {}" [PStr (exn_text e)] ;;
       body <- lift (json_dumps (PDict [("error", PStr "Internal error")])) ;;
       ret (mkEnvelope 500 None body)).

End Handlers.

(** The keys of the deletes the loop reaches on [items]: an item without
    [id] or [timestamp] raises before the store is called. *)
Definition keys_of (items : list pyval) : list pyval :=
  flat_map (fun item => match item_key item with Ok k => [k] | Raise _ => [] end)
           items.

(** A record of a stream batch is malformed when its loop turn raises. *)
Definition malformed (W : world) (record : pyval) : bool :=
  raises (outcome (stream_record W record initial)).

(** The item [store_metadata] puts for an object, from the two readings of
    the clock. *)
Definition metadata_item (bucket : pyval) (key : string) (t1 t2 : datetime)
  : pyval :=
  PDict [("id", PStr ("s3-" ++ replace_slash key));
         ("timestamp", PInt (dt_epoch_ms t1));
         ("type", PStr "file_upload");
         ("bucket", bucket);
         ("key", PStr key);
         ("uploaded_at", PStr (dt_isoformat t2))].

Definition malformed_count (W : world) (records : list pyval) : Z :=
  Z.of_nat (List.length (filter (malformed W) records)).

(** A record of a storage batch whose two subscript chains succeed and whose
    key is a string, so that the stored item can be built. *)
Definition s3_record_shaped (record : pyval) : bool :=
  is_ok (rbind (getitem record "s3") (fun s3 =>
         rbind (getitem s3 "bucket") (fun b => getitem b "name")))
  && match rbind (getitem record "s3") (fun s3 =>
           rbind (getitem s3 "object") (fun o => getitem o "key")) with
     | Ok (PStr _) => true
     | _ => false
     end.

(** The first record can be probed for its marker: the [Records] value is
    falsy, or its element [0] exists and supports [in]. *)
Definition probe_safe (records : pyval) : bool :=
  negb (truthy records)
  || match getitem0 records with
     | Ok (PDict _) | Ok (PList _) | Ok (PStr _) => true
     | _ => false
     end.

Definition records_probe_safe (entries : list (string * pyval)) : bool :=
  match lookup "Records" entries with
  | Some records => probe_safe records
  | None => true
  end.

(** What the specification says of the classifier and of the storage-batch
    handler, as propositions about one input. *)
Definition classified (event : pyval) : Prop :=
  exists tag, determine_event_source event = Ok tag /\ In tag source_tags.

(** Every answer [m] can return has a status code in [codes]. *)
Definition answers (codes : list Z) (m : M envelope) : Prop :=
  forall s answer s', m s = (Ok answer, s') -> In (statusCode answer) codes.

Definition reports_whole_batch (W : world) (event : pyval) (context : context)
    (s : state) : Prop :=
  forall records,
    py_get event "Records" (PList []) = Ok (PList records) ->
    outcome (process_s3_event W event context s)
    = Ok (mkEnvelope 200 None
            (PDict [("processed", PInt (Z.of_nat (List.length records)))])).

End LambdaHandler.

(* ===================================================================== *)
(** * app_flask.py: the list operation *)
(* ===================================================================== *)

Module AppFlask.
Import Py Effects.
#[local] Open Scope py_scope.

(** The part of a request the list operation can see: its query string, as
    the pairs of [request.args] in order. *)
Record request : Type := mkRequest {
  args : list (string * string)
}.

(** [request.args.get(key)]: the first value given for [key]. *)
Fixpoint args_get (key : string) (l : list (string * string)) : option string :=
  match l with
  | [] => None
  | (k, v) :: rest => if String.eqb key k then Some v else args_get key rest
  end.

(** [int(request.args.get('limit', 10))]. *)
Definition requested_limit (r : request) : result Z :=
  match args_get "limit" (args r) with
  | Some text => py_int text
  | None => Ok 10
  end.

Section Routes.

Variable W : world.

Definition scan (kwargs : list (string * pyval)) : M pyval :=
  perform (Scan kwargs) (fun h => table_scan W h kwargs).

(** ** list_items

    The response is the pair Flask is given: the value passed to [jsonify]
    and the status. *)
Definition list_items (r : request) : M (pyval * Z) :=
  try_except_ClientError
    (limit <- lift (rbind (requested_limit r) (fun n => Ok (Z.min n 100))) ;;
     response <- scan [("Limit", PInt limit)] ;;
     items <- lift (py_get response "Items" (PList [])) ;;
     count <- lift (py_len items) ;;
     last_evaluated_key <- lift (py_get response "LastEvaluatedKey" PNone) ;;
     ret (PDict [("items", items);
                 ("count", PInt count);
                 ("last_evaluated_key", last_evaluated_key);
                 ("message", PStr "Use last_evaluated_key parameter for next page")],
          200))
    (fun e =>
       message <- lift (rbind (getitem (exn_response e) "Error")
                              (fun error => getitem error "Message")) ;;
       log ERROR "DynamoDB error: {}" [message] ;;
       ret (PDict [("error", PStr "Database error")], 500)).

End Routes.

(** [try: body / except ClientError as e: on_client / except Exception as e:
    on_other]: what a handler raises is not caught by the other clause. *)
Definition try_except_ClientError_Exception {A} (body : M A)
    (on_client on_other : exn -> M A) : M A :=
  fun s =>
    match body s with
    | (Ok a, s') => (Ok a, s')
    | (Raise e, s') => if is_client_error e then on_client e s' else on_other e s'
    end.

Section WriteRoutes.

Variable W : world.

(** The text of [datetime.utcnow().timestamp()] inside an f-string: the
    formatting of a float, taken as given. *)
Variable timestamp_text : datetime -> string.

(** [os.getenv('ENVIRONMENT', 'dev')], read once at import. *)
Definition ENVIRONMENT : string :=
  match getenv W "ENVIRONMENT" with
  | Some v => v
  | None => "dev"
  end.

Definition utcnow : M datetime :=
  perform UtcNow (fun h => Ok (clock W h)).

Definition put_item (item : pyval) : M pyval :=
  perform (PutItem item) (fun h => table_put_item W h item).

(** ** publish_metric

    The [Dimensions] of the datum hold [ENVIRONMENT] alone, a constant of
    the process; the call is recorded by its other fields. *)
Definition publish_metric (metric_name : string) (value : Z) (unit : string)
  : M Datatypes.unit :=
  try_except
    (now <- utcnow ;;
     perform (PutMetricData "StartupPlatform" metric_name value unit now)
             (fun h => cloudwatch_put_metric_data W h "StartupPlatform"
                         metric_name value unit now) ;;
     ret tt)
    (fun e => log WARNING "Failed to publish metric {}: {}"
                  [PStr metric_name; PStr (exn_text e)]).

(** The item [create_item] stores, from the three readings of the clock and
    the two fields taken from the body. *)
Definition new_item (t0 t1 t2 : datetime) (name description : pyval) : pyval :=
  PDict [("id", PStr ("item-" ++ timestamp_text t0));
         ("timestamp", PInt (dt_epoch_ms t1));
         ("name", name);
         ("description", description);
         ("created_at", PStr (dt_isoformat t2));
         ("environment", PStr ENVIRONMENT)].

(** ** create_item

    [payload] is what [request.get_json()] does on the request: the parsed
    body, [None], or the exception Flask raises. *)
Definition create_item (payload : result pyval) : M (pyval * Z) :=
  try_except_ClientError_Exception
    (data <- lift payload ;;
     missing <- lift (if truthy data
                      then rbind (contains "name" data) (fun b => Ok (negb b))
                      else Ok true) ;;
     if missing : bool then
       ret (PDict [("error", PStr "Missing required field: name")], 400)
     else
       t0 <- utcnow ;;
       t1 <- utcnow ;;
       name <- lift (getitem data "name") ;;
       description <- lift (py_get data "description" (PStr "")) ;;
       t2 <- utcnow ;;
       let item := new_item t0 t1 t2 name description in
       put_item item ;;
       log INFO "Created item: {}" [PStr ("item-" ++ timestamp_text t0)] ;;
       publish_metric "ItemsCreated" 1 "Count" ;;
       ret (PDict [("message", PStr "Item created successfully");
                   ("item", item)], 201))
    (fun e =>
       message <- lift (rbind (getitem (exn_response e) "Error")
                              (fun error => getitem error "Message")) ;;
       log ERROR "DynamoDB error: {}" [message] ;;
       ret (PDict [("error", PStr "Database error")], 500))
    (fun e =>
       log ERROR "Unexpected error: {}" [PStr (exn_text e)] ;;
       ret (PDict [("error", PStr "Internal server error")], 500)).

End WriteRoutes.

(** The specification's clamp, as a proposition about one request: every
    page size the store is asked for lies in [1, 100]. *)
Definition page_sizes_clamped (W : world) (r : request) : Prop :=
  forall limit,
    In [("Limit", PInt limit)] (scans (history (final (list_items W r initial)))) ->
    1 <= limit <= 100.

End AppFlask.

(* ===================================================================== *)
(** * Worlds and events of the scenarios *)
(* ===================================================================== *)

Module Scenarios.
Import Py Effects LambdaHandler AppFlask.

Definition a_moment : datetime :=
  mkDatetime 1700000000000 "2023-11-14T22:13:20.000000".

(** A store error as botocore reports it. *)
Definition throttled (operation : string) : exn :=
  mkExn ClientError
    ("An error occurred (ProvisionedThroughputExceededException) when calling the "
     ++ operation ++ " operation: Rate exceeded")
    (PDict [("Error", PDict [("Code", PStr "ProvisionedThroughputExceededException");
                             ("Message", PStr "Rate exceeded")])]).

(** A stand-in for the store library's deserializer: strings and booleans. *)
Definition deserialize_scalar (v : pyval) : result pyval :=
  match v with
  | PDict [("S", PStr s)] => Ok (PStr s)
  | PDict [("BOOL", PBool b)] => Ok (PBool b)
  | _ => Raise (builtin_error TypeError "Dynamodb type is not supported")
  end.

(** A world whose store holds [items]: a scan answers with all of them (or
    raises [scan_error]), a put raises [put_error] when there is one, and the
    delete that comes after [n] earlier deletes raises when [failing_delete]
    is [Some n].  Metrics and notifications are accepted. *)
Definition store_world (items : list pyval) (scan_error put_error : option exn)
    (failing_delete : option nat) : world :=
  mkWorld
    (fun _ _ => match scan_error with
                | Some e => Raise e
                | None => Ok (PDict [("Items", PList items)])
                end)
    (fun _ _ => match put_error with
                | Some e => Raise e
                | None => Ok (PDict [])
                end)
    (fun h _ => match failing_delete with
                | Some n => if Nat.eqb (List.length (deletes h)) n
                            then Raise (throttled "DeleteItem") else Ok (PDict [])
                | None => Ok (PDict [])
                end)
    (fun _ _ _ _ _ _ => Ok (PDict []))
    (fun _ _ _ _ => Ok (PDict []))
    (fun _ => a_moment)
    (fun _ => None)
    deserialize_scalar.

Definition quiet_world : world := store_world [] None None None.

Definition lambda_context : context :=
  mkContext "LambdaContext" [("request_id", PStr "c6af9ac6-7b61-11e6-9a41-93e8deadbeef")].

Definition expired (id : string) (timestamp : Z) : pyval :=
  PDict [("id", PStr id); ("timestamp", PInt timestamp);
         ("expiration_time", PInt 1600000000000)].

Definition three_expired : list pyval :=
  [expired "item-1" 1; expired "item-2" 2; expired "item-3" 3].

Definition scheduled_event : pyval :=
  PDict [("source", PStr "aws.events"); ("detail-type", PStr "Scheduled Event")].

Definition stream_insert (id : string) : pyval :=
  PDict [("eventName", PStr "INSERT");
         ("dynamodb", PDict [("Keys", PDict [("id", PDict [("S", PStr id)])]);
                             ("NewImage", PDict [("id", PDict [("S", PStr id)])])])].

(** A record with a marker but no [eventName]. *)
Definition stream_broken : pyval := PDict [("dynamodb", PDict [])].

Definition stream_event : pyval :=
  PDict [("Records", PList [stream_insert "a"; stream_broken; stream_insert "b"])].

Definition s3_put (bucket key : string) : pyval :=
  PDict [("eventName", PStr "ObjectCreated:Put");
         ("s3", PDict [("bucket", PDict [("name", PStr bucket)]);
                       ("object", PDict [("key", PStr key)])])].

Definition s3_event : pyval :=
  PDict [("Records", PList [s3_put "uploads" "2024/a.jpg"; s3_put "uploads" "b.csv"])].

(** A storage batch whose only record has the marker and nothing under it. *)
Definition s3_bare_event : pyval := PDict [("Records", PList [PDict [("s3", PDict [])]])].

Definition empty_records_http_event : pyval :=
  PDict [("Records", PList []); ("httpMethod", PStr "GET"); ("path", PStr "/items")].

(** A JSON array that holds the two attribute names of an HTTP event. *)
Definition list_shaped_event : pyval := PList [PStr "httpMethod"; PStr "path"].

Definition http_items_event : pyval :=
  PDict [("httpMethod", PStr "GET"); ("path", PStr "/items")].

(** The store refuses every scan. *)
Definition scan_refused_world : world :=
  store_world [] (Some (throttled "Scan")) None None.

(** The store refuses every put. *)
Definition put_refused_world : world :=
  store_world [] None (Some (throttled "PutItem")) None.

(** A scan answer in the store library's types: numbers are [Decimal]. *)
Definition decimal_item : pyval :=
  PDict [("id", PStr "item-1"); ("timestamp", PDecimal 1700000000000 0)].

(** The sink of metrics is down; everything else answers. *)
Definition metrics_down_world : world :=
  mkWorld (table_scan quiet_world) (table_put_item quiet_world)
    (table_delete_item quiet_world)
    (fun _ _ _ _ _ _ =>
       Raise (mkExn (OtherException "EndpointConnectionError")
                "Could not connect to the endpoint URL" PNone))
    (sns_publish quiet_world) (clock quiet_world) (getenv quiet_world)
    (type_deserialize quiet_world).

(** A notification topic is configured. *)
Definition topic_world : world :=
  mkWorld (table_scan quiet_world) (table_put_item quiet_world)
    (table_delete_item quiet_world) (cloudwatch_put_metric_data quiet_world)
    (sns_publish quiet_world) (clock quiet_world)
    (fun name => if String.eqb name "SNS_TOPIC_ARN"
                 then Some "arn:aws:sns:us-east-1:123456789012:alarms" else None)
    (type_deserialize quiet_world).

(** The store fails a put with an error that is no [ClientError]. *)
Definition unreachable : exn :=
  mkExn (OtherException "EndpointConnectionError")
    "Could not connect to the endpoint URL" PNone.

Definition put_unreachable_world : world :=
  store_world [] None (Some unreachable) None.

Definition float_text (t : datetime) : string := "1700000000.0".

Definition list_request (limit : string) (last_key : option string) : request :=
  mkRequest (("limit", limit)
             :: match last_key with Some k => [("last_key", k)] | None => [] end).

End Scenarios.

(* ===================================================================== *)
(** * The classifier *)
(* ===================================================================== *)

Section Classifier.
Import Py Effects LambdaHandler Scenarios.

Lemma contains_dict key d :
  contains key (PDict d)
  = Ok (match lookup key d with Some _ => true | None => false end).
Proof. reflexivity. Qed.

Lemma getitem_dict_some key d v :
  lookup key d = Some v -> getitem (PDict d) key = Ok v.
Proof. intros H. unfold getitem. now rewrite H. Qed.

(** Whatever the event, a tag that is returned is one of the five. *)
Lemma determine_event_source_tag event tag :
  determine_event_source event = Ok tag -> In tag source_tags.
Proof.
  unfold determine_event_source, rbind, source_tags.
  repeat match goal with
         | |- context [match ?x with _ => _ end] => destruct x
         end;
    intros H; inversion H; subst; simpl; tauto.
Qed.

(** A dict event whose [Records] value is falsy is answered [unknown]: the
    outer [if] was taken, so no branch below it is tried. *)
Lemma falsy_records_unknown d records :
  lookup "Records" d = Some records ->
  truthy records = false ->
  determine_event_source (PDict d) = Ok "unknown".
Proof.
  intros Hl Ht. unfold determine_event_source.
  rewrite contains_dict, Hl. cbn [rbind].
  rewrite (getitem_dict_some _ _ _ Hl). cbn [rbind].
  now rewrite Ht.
Qed.

(** A probe of a dict, list or string for a key does not raise. *)
Lemma contains_container key v :
  match v with PDict _ | PList _ | PStr _ => True | _ => False end ->
  exists b, contains key v = Ok b.
Proof. destruct v; simpl; intros H; try contradiction; eauto. Qed.

Lemma probe_safe_first records :
  probe_safe records = true ->
  truthy records = true ->
  exists first,
    getitem0 records = Ok first
    /\ match first with PDict _ | PList _ | PStr _ => True | _ => False end.
Proof.
  unfold probe_safe. intros H Ht. rewrite Ht in H. simpl in H.
  destruct (getitem0 records) as [first|]; [|discriminate].
  exists first. split; [reflexivity|]. destruct first; try discriminate; exact I.
Qed.

(** The condition is the exact one: a dict event on which the classifier
    returns has a [Records] value that can be probed. *)
Lemma classified_dict_probe_safe d :
  classified (PDict d) -> records_probe_safe d = true.
Proof.
  intros (tag & H & _). unfold records_probe_safe, probe_safe.
  destruct (lookup "Records" d) as [records|] eqn:Hl; [|reflexivity].
  unfold determine_event_source in H.
  rewrite contains_dict, Hl in H. cbn [rbind] in H.
  rewrite (getitem_dict_some _ _ _ Hl) in H. cbn [rbind] in H.
  destruct (truthy records); [|reflexivity]. cbn [negb orb].
  destruct (getitem0 records) as [first|]; [|discriminate].
  cbn [rbind] in H.
  destruct first; try reflexivity; cbn in H; discriminate.
Qed.

(** C2, as amended: on every event that is a dict and whose [Records] value,
    when there is one, is falsy or starts with a dict, a list or a string,
    the classifier returns, and what it returns is one of the five tags. *)
Theorem classify_total_on_probe_safe_dicts d :
  records_probe_safe d = true -> classified (PDict d).
Proof.
  intros Hsafe.
  assert (Hret : exists tag, determine_event_source (PDict d) = Ok tag).
  { unfold records_probe_safe in Hsafe.
    destruct (lookup "Records" d) as [records|] eqn:Hl.
    - destruct (truthy records) eqn:Ht.
      + destruct (probe_safe_first _ Hsafe Ht) as (first & H0 & Hc).
        destruct (contains_container "dynamodb" _ Hc) as [b1 Hb1].
        destruct (contains_container "s3" _ Hc) as [b2 Hb2].
        unfold determine_event_source.
        rewrite contains_dict, Hl. cbn [rbind].
        rewrite (getitem_dict_some _ _ _ Hl). cbn [rbind].
        rewrite Ht, H0. cbn [rbind]. rewrite Hb1, Hb2. cbn [rbind].
        destruct b1, b2; eauto.
      + exists "unknown". eapply falsy_records_unknown; eauto.
    - unfold determine_event_source.
      rewrite !contains_dict, Hl. cbn [rbind].
      destruct (lookup "httpMethod" d), (lookup "path" d); cbn [rbind]; eauto;
        destruct (lookup "source" d) as [v|] eqn:Hs; cbn [rbind]; eauto;
        rewrite (getitem_dict_some _ _ _ Hs); cbn [rbind];
        destruct (py_eq_str v "aws.events"); eauto. }
  destruct Hret as [tag Htag]. exists tag. split; [exact Htag|].
  eapply determine_event_source_tag; eauto.
Qed.

Lemma classify_total_on_probe_safe_dicts_witness :
  classified Scenarios.stream_event.
Proof.
  apply (classify_total_on_probe_safe_dicts
           [("Records", PList [stream_insert "a"; stream_broken; stream_insert "b"])]).
  reflexivity.
Defined.

(** C2, as stated, fails: the classifier raises [TypeError] on the null
    event, and on a dict event whose first record is a number. *)
Lemma classify_raises_on_null_event :
  ~ classified PNone /\ ~ classified (PDict [("Records", PList [PInt 5])]).
Proof.
  split; intros (tag & H & _); vm_compute in H; discriminate.
Qed.

(** C3, as stated, fails: with an empty [Records] list next to [httpMethod]
    and [path], the answer is not [api_gateway]. *)
Lemma empty_records_http_not_api_gateway :
  lookup "Records" [("Records", PList []); ("httpMethod", PStr "GET");
                    ("path", PStr "/items")] = Some (PList [])
  /\ contains "httpMethod" empty_records_http_event = Ok true
  /\ contains "path" empty_records_http_event = Ok true
  /\ determine_event_source empty_records_http_event <> Ok "api_gateway".
Proof.
  repeat split; vm_compute; discriminate.
Qed.

(** C3, as amended: an event with an empty [Records] list and both
    [httpMethod] and [path] is answered [unknown]; the presence of the
    [Records] key keeps the classifier from the HTTP test. *)
Theorem empty_records_with_http_is_unknown d :
  lookup "Records" d = Some (PList []) ->
  contains "httpMethod" (PDict d) = Ok true ->
  contains "path" (PDict d) = Ok true ->
  determine_event_source (PDict d) = Ok "unknown"
  /\ determine_event_source (PDict d) <> Ok "api_gateway".
Proof.
  intros Hl _ _.
  rewrite (falsy_records_unknown d (PList []) Hl eq_refl).
  split; [reflexivity | discriminate].
Qed.

Lemma empty_records_with_http_is_unknown_witness :
  determine_event_source empty_records_http_event = Ok "unknown"
  /\ determine_event_source empty_records_http_event <> Ok "api_gateway".
Proof.
  apply (empty_records_with_http_is_unknown
           [("Records", PList []); ("httpMethod", PStr "GET"); ("path", PStr "/items")]);
    reflexivity.
Defined.

(** C4: every event whose [Records] sequence is empty is answered [unknown],
    hence neither [dynamodb] nor [s3]. *)
Theorem empty_records_is_unknown d :
  lookup "Records" d = Some (PList []) ->
  determine_event_source (PDict d) = Ok "unknown"
  /\ determine_event_source (PDict d) <> Ok "dynamodb"
  /\ determine_event_source (PDict d) <> Ok "s3".
Proof.
  intros Hl.
  pose proof (falsy_records_unknown d (PList []) Hl eq_refl) as H.
  rewrite H. repeat split; discriminate.
Qed.

Lemma empty_records_is_unknown_witness :
  determine_event_source (PDict [("Records", PList [])]) = Ok "unknown"
  /\ determine_event_source (PDict [("Records", PList [])]) <> Ok "dynamodb"
  /\ determine_event_source (PDict [("Records", PList [])]) <> Ok "s3".
Proof.
  apply (empty_records_is_unknown [("Records", PList [])]). reflexivity.
Defined.

End Classifier.

(* ===================================================================== *)
(** * Running the monad *)
(* ===================================================================== *)

Section Running.
Import Py Effects.
#[local] Open Scope py_scope.

Lemma bind_ok {A B} (m : M A) (f : A -> M B) s a s' :
  m s = (Ok a, s') -> bind m f s = f a s'.
Proof. intros H. unfold bind. now rewrite H. Qed.

Lemma bind_raise {A B} (m : M A) (f : A -> M B) s e s' :
  m s = (Raise e, s') -> bind m f s = (Raise e, s').
Proof. intros H. unfold bind. now rewrite H. Qed.

Lemma bind_lift_ok {A B} (r : result A) (f : A -> M B) s a :
  r = Ok a -> bind (lift r) f s = f a s.
Proof. intros ->. reflexivity. Qed.

Lemma bind_lift_raise {A B} (r : result A) (f : A -> M B) s e :
  r = Raise e -> bind (lift r) f s = (Raise e, s).
Proof. intros ->. reflexivity. Qed.

Lemma try_except_ok {A} (m : M A) h s a s' :
  m s = (Ok a, s') -> try_except m h s = (Ok a, s').
Proof. intros H. unfold try_except. now rewrite H. Qed.

Lemma try_except_raise {A} (m : M A) h s e s' :
  m s = (Raise e, s') -> try_except m h s = h e s'.
Proof. intros H. unfold try_except. now rewrite H. Qed.

Lemma log_run l template values s :
  log l template values s
  = (Ok tt, mkState (history s) (logged s ++ [(l, FString template values)])).
Proof. reflexivity. Qed.

(** A handler that cannot raise makes the whole [try] return. *)
Lemma try_except_returns {A} (m : M A) h s :
  (forall e s1, exists a s2, h e s1 = (Ok a, s2)) ->
  exists a s', try_except m h s = (Ok a, s').
Proof.
  intros Hh. unfold try_except.
  destruct (m s) as [[a|e] s1]; eauto.
Qed.

End Running.

(* ===================================================================== *)
(** * The stream-batch handler *)
(* ===================================================================== *)

Section StreamBatch.
Import Py Effects LambdaHandler Scenarios.
#[local] Open Scope py_scope.

Variable W : world.

Lemma publish_metric_returns name value s :
  exists s', publish_metric W name value s = (Ok tt, s').
Proof.
  unfold publish_metric, try_except, bind, utcnow, put_metric_data, perform,
    ret, log.
  cbn [fst snd history logged].
  destruct (cloudwatch_put_metric_data W _ _ _ _ _ _); eauto.
Qed.

Lemma send_notification_returns message s :
  exists s', send_notification W message s = (Ok tt, s').
Proof.
  unfold send_notification.
  destruct (getenv W "SNS_TOPIC_ARN") as [[|c arn]|];
    try (rewrite log_run; eauto).
  unfold try_except, bind, publish, perform, log.
  cbn [history logged].
  destruct (sns_publish W _ _ _ _); eauto.
Qed.

(** Whether a loop turn raises is decided by the record alone: logging and
    the notification never raise, and nothing else reads the world's
    answers. *)
Lemma stream_record_raises_anywhere record s :
  raises (outcome (stream_record W record s)) = malformed W record.
Proof.
  unfold malformed.
  assert (H : forall s1 s2,
             is_ok (outcome (stream_record W record s1))
             = is_ok (outcome (stream_record W record s2))).
  { intros s1 s2. unfold stream_record, outcome, bind, lift, log, ret.
    destruct (getitem record "eventName") as [event_name|e];
      [|reflexivity].
    destruct (rbind (getitem record "dynamodb")
                (fun d => py_get d "Keys" (PDict []))) as [keys|e];
      [|reflexivity].
    destruct (rbind (getitem record "dynamodb")
                (fun d => py_get d "NewImage" (PDict []))) as [new_image|e];
      [|reflexivity].
    destruct (rbind (getitem record "dynamodb")
                (fun d => py_get d "OldImage" (PDict []))) as [old_image|e];
      [|reflexivity].
    cbn beta iota.
    destruct (py_eq_str event_name "INSERT");
      [| destruct (py_eq_str event_name "MODIFY");
         [| destruct (py_eq_str event_name "REMOVE")]];
      try (destruct (deserialize_dynamodb_item W keys); [|reflexivity]);
      cbn beta iota;
      try reflexivity;
      destruct (contains "user_id" new_image) as [[|]|]; try reflexivity;
      destruct (rbind (getitem new_image "user_id") (fun u => getitem u "S"));
      try reflexivity;
      match goal with
      | |- context [send_notification W ?m ?a] =>
          destruct (send_notification_returns m a) as [? ->]
      end;
      match goal with
      | |- context [send_notification W ?m ?a] =>
          destruct (send_notification_returns m a) as [? ->]
      end;
      reflexivity. }
  unfold raises. now rewrite (H s initial).
Qed.

(** One loop turn moves exactly one of the two counters, whichever state it
    starts from, and always hands over to the next turn. *)
Lemma stream_turn record processed failed s :
  exists s',
    try_except
      (stream_record W record ;; ret (processed + 1, failed))
      (fun e =>
         log ERROR "Failed to process record: {}" [PStr (exn_text e)] ;;
         ret (processed, failed + 1)) s
    = (Ok (if malformed W record
           then (processed, failed + 1)
           else (processed + 1, failed)), s').
Proof.
  rewrite <- (stream_record_raises_anywhere record s).
  unfold raises, outcome, try_except, bind, ret, log.
  destruct (stream_record W record s) as [[[]|e] s1]; cbn; eauto.
Qed.

Lemma malformed_count_cons record rest :
  malformed_count W (record :: rest)
  = (if malformed W record then 1 else 0) + malformed_count W rest.
Proof.
  unfold malformed_count. cbn [filter].
  destruct (malformed W record); cbn [List.length]; lia.
Qed.

Lemma stream_loop_counts records :
  forall processed failed s,
  exists s',
    stream_loop W records processed failed s
    = (Ok (processed + (Z.of_nat (List.length records) - malformed_count W records),
           failed + malformed_count W records), s').
Proof.
  induction records as [|record rest IH]; intros processed failed s.
  - exists s. cbn. unfold ret, malformed_count. cbn. do 3 f_equal; lia.
  - cbn [stream_loop].
    destruct (stream_turn record processed failed s) as [s1 H1].
    rewrite (bind_ok _ _ _ _ _ H1).
    destruct (IH (fst (if malformed W record
                       then (processed, failed + 1)
                       else (processed + 1, failed)))
                 (snd (if malformed W record
                       then (processed, failed + 1)
                       else (processed + 1, failed))) s1) as [s2 H2].
    exists s2. rewrite H2, malformed_count_cons.
    destruct (malformed W record); cbn [fst snd List.length];
      do 3 f_equal; lia.
Qed.

(** C1: on a batch of N records of which M are malformed, the handler
    answers 200 with [processed = N - M] and [failed = M], the two adding up
    to N; a record is malformed when its turn raises, which does not depend
    on what was done before it, so no failure stops the turns after it. *)
Theorem stream_batch_counts event context s records :
  py_get event "Records" (PList []) = Ok (PList records) ->
  let N := Z.of_nat (List.length records) in
  let M := malformed_count W records in
  (forall record s', raises (outcome (stream_record W record s')) = malformed W record)
  /\ outcome (process_dynamodb_stream W event context s)
     = Ok (mkEnvelope 200 None (PDict [("processed", PInt (N - M)); ("failed", PInt M)]))
  /\ (N - M) + M = N.
Proof.
  intros Hrecords N M.
  split; [intros; apply stream_record_raises_anywhere|].
  split; [|lia].
  unfold process_dynamodb_stream, outcome.
  rewrite Hrecords. cbn [rbind py_iter].
  rewrite (bind_lift_ok _ _ _ _ eq_refl).
  destruct (stream_loop_counts records 0 0 s) as [s1 H1].
  rewrite (bind_ok _ _ _ _ _ H1). cbn [fst snd].
  replace (0 + (Z.of_nat (List.length records) - malformed_count W records))
    with (N - M) by (subst N M; lia).
  replace (0 + malformed_count W records) with M by (subst M; lia).
  destruct (publish_metric_returns "StreamRecordsProcessed" (N - M) s1)
    as [s2 H2].
  rewrite (bind_ok _ _ _ _ _ H2).
  assert (H3 : exists s3,
             (if 0 <? M
              then publish_metric W "StreamRecordsFailed" M
              else ret tt) s2 = (Ok tt, s3)).
  { destruct (0 <? M); [apply publish_metric_returns | unfold ret; eauto]. }
  destruct H3 as [s3 H3].
  rewrite (bind_ok _ _ _ _ _ H3).
  reflexivity.
Qed.

End StreamBatch.

Lemma stream_batch_counts_witness :
  Py.raises (Effects.outcome
               (LambdaHandler.stream_record Scenarios.quiet_world
                  Scenarios.stream_broken Effects.initial)) = true
  /\ Effects.outcome
       (LambdaHandler.process_dynamodb_stream Scenarios.quiet_world
          Scenarios.stream_event Scenarios.lambda_context Effects.initial)
     = Py.Ok (LambdaHandler.mkEnvelope 200 None
                (Py.PDict [("processed", Py.PInt 2); ("failed", Py.PInt 1)])).
Proof.
  pose proof (stream_batch_counts Scenarios.quiet_world Scenarios.stream_event
                Scenarios.lambda_context Effects.initial
                [Scenarios.stream_insert "a"; Scenarios.stream_broken;
                 Scenarios.stream_insert "b"] eq_refl) as (Hturn & Hanswer & _).
  split; [apply Hturn | exact Hanswer].
Defined.

(* ===================================================================== *)
(** * The scheduled cleanup *)
(* ===================================================================== *)

Section Cleanup.
Import Py Effects LambdaHandler.
#[local] Open Scope py_scope.
#[local] Open Scope list_scope.

Variable W : world.

Lemma deletes_app h1 h2 : deletes (h1 ++ h2) = deletes h1 ++ deletes h2.
Proof. unfold deletes. apply flat_map_app. Qed.

Lemma deletes_of_deletes keys : deletes (map DeleteItem keys) = keys.
Proof.
  induction keys as [|k keys IH]; [reflexivity|].
  cbn [map]. change (deletes (DeleteItem k :: map DeleteItem keys))
    with (k :: deletes (map DeleteItem keys)).
  now rewrite IH.
Qed.

Lemma keys_of_app l1 l2 : keys_of (l1 ++ l2) = keys_of l1 ++ keys_of l2.
Proof. unfold keys_of. apply flat_map_app. Qed.

(** A turn, whatever its outcome, adds to the history the delete of the
    item's key when the key could be built, and nothing otherwise. *)
Lemma delete_expired_history item s r s' :
  delete_expired W item s = (r, s') ->
  history s' = history s ++ map DeleteItem (keys_of [item])
  /\ logged s' = logged s.
Proof.
  unfold delete_expired, keys_of, bind, lift, delete_item, perform.
  cbn [flat_map]. destruct (item_key item) as [key|e]; cbn.
  - destruct (table_delete_item W (history s) key);
      intros H; inversion H; subst; cbn; auto.
  - intros H; inversion H; subst. now rewrite app_nil_r.
Qed.

(** A loop that runs to its end has deleted every item, in order. *)
Lemma delete_loop_history items :
  forall count s k s',
    delete_loop W items count s = (Ok k, s') ->
    history s' = history s ++ map DeleteItem (keys_of items)
    /\ logged s' = logged s
    /\ k = count + Z.of_nat (List.length items).
Proof.
  induction items as [|item rest IH]; intros count s k s' H.
  - cbn in H. unfold ret in H. inversion H; subst. cbn.
    rewrite app_nil_r. repeat split; lia.
  - cbn [delete_loop] in H. unfold bind at 1 in H.
    destruct (delete_expired W item s) as [[v|e] s1] eqn:E1; [|discriminate].
    destruct (delete_expired_history _ _ _ _ E1) as [Hh Hl].
    destruct (IH _ _ _ _ H) as (Hh' & Hl' & Hk).
    change (item :: rest) with ([item] ++ rest).
    rewrite keys_of_app, map_app, app_assoc, <- Hh.
    repeat split; [assumption | congruence |].
    rewrite Hk. cbn [List.length app]. lia.
Qed.

(** The turn that raises is the last one: the items after it do not matter
    to the result, and the state is the one that turn left. *)
Lemma delete_loop_stops done item rest :
  forall count s k s1 e s2,
    delete_loop W done count s = (Ok k, s1) ->
    delete_expired W item s1 = (Raise e, s2) ->
    delete_loop W (done ++ item :: rest) count s = (Raise e, s2).
Proof.
  induction done as [|d done IH]; intros count s k s1 e s2 Hdone Hfail.
  - cbn in Hdone. unfold ret in Hdone. inversion Hdone; subst.
    cbn [app delete_loop]. now rewrite (bind_raise _ _ _ _ _ Hfail).
  - cbn [app delete_loop] in *. unfold bind at 1 in Hdone. unfold bind at 1.
    destruct (delete_expired W d s) as [[v|e'] s'] eqn:E; [|discriminate].
    eapply IH; eauto.
Qed.

(** C5: when the scan returns a sequence of expired items, the deletes of
    the first k-1 succeed and the delete of the k-th fails, the handler
    answers 500 and the calls it has made end with the failed delete: the
    store was asked to delete the first k items and none after them. *)
Theorem cleanup_stops_at_failed_delete
    event context s response done item rest k s1 e s2 :
  let started :=
    mkState (history s ++ [UtcNow])
            (logged s ++ [(INFO, FString "Executing scheduled task" [])]) in
  let filter := expired_filter (dt_epoch_ms (clock W (history s))) in
  table_scan W (history started) filter = Ok response ->
  py_get response "Items" (PList []) = Ok (PList (done ++ item :: rest)) ->
  delete_loop W done 0
    (mkState (history started ++ [Scan filter]) (logged started)) = (Ok k, s1) ->
  delete_expired W item s1 = (Raise e, s2) ->
  let r := process_scheduled_task W event context s in
  outcome r = Ok (mkEnvelope 500 None (PDict [("error", PStr (exn_text e))]))
  /\ history (final r) = history s2
  /\ deletes (history (final r))
     = deletes (history s) ++ keys_of (done ++ [item]).
Proof.
  intros started filter Hscan Hitems Hdone Hfail r.
  subst started. cbn [history logged] in Hscan, Hdone.
  pose proof (delete_loop_stops done item rest _ _ _ _ _ _ Hdone Hfail) as Hloop.
  assert (Hr : r = (Ok (mkEnvelope 500 None (PDict [("error", PStr (exn_text e))])),
                    mkState (history s2)
                      (logged s2 ++ [(ERROR, FString "Cleanup task failed: {}"
                                               [PStr (exn_text e)])]))).
  { subst r. unfold process_scheduled_task.
    unfold bind at 1. rewrite log_run.
    erewrite try_except_raise.
    2:{ unfold bind at 1. unfold utcnow at 1, perform at 1.
        cbn [history logged].
        unfold bind at 1. unfold scan at 1, perform at 1.
        cbn [history logged].
        fold filter. rewrite Hscan.
        rewrite Hitems. cbn [rbind py_iter].
        rewrite (bind_lift_ok _ _ _ _ eq_refl).
        erewrite bind_raise; [reflexivity|].
        exact Hloop. }
    reflexivity. }
  rewrite Hr. cbn [outcome final fst snd history].
  repeat split.
  destruct (delete_loop_history _ _ _ _ _ Hdone) as (Hh1 & _ & _).
  destruct (delete_expired_history _ _ _ _ Hfail) as (Hh2 & _).
  rewrite Hh2, Hh1. cbn [history].
  rewrite keys_of_app, <- !app_assoc, !deletes_app, !deletes_of_deletes.
  cbn [deletes flat_map app]. reflexivity.
Qed.

(** Whatever the scan raises, its text is the [error] of the body. *)
Lemma scheduled_task_scan_error event context s e :
  table_scan W (history s ++ [UtcNow])
    (expired_filter (dt_epoch_ms (clock W (history s)))) = Raise e ->
  outcome (process_scheduled_task W event context s)
  = Ok (mkEnvelope 500 None (PDict [("error", PStr (exn_text e))])).
Proof.
  intros Hscan. unfold process_scheduled_task, outcome.
  unfold bind at 1. rewrite log_run.
  erewrite try_except_raise.
  2:{ unfold bind at 1. unfold utcnow at 1, perform at 1.
      cbn [history logged].
      unfold bind at 1. unfold scan at 1, perform at 1.
      cbn [history logged]. rewrite Hscan. reflexivity. }
  reflexivity.
Qed.

End Cleanup.

(** The scenario of three expired items with the delete of the second one
    failing: 500, and the third item is never asked for. *)
Lemma cleanup_stops_at_failed_delete_witness :
  let W := Scenarios.store_world Scenarios.three_expired None None (Some 1%nat) in
  let r := LambdaHandler.process_scheduled_task W Scenarios.scheduled_event
             Scenarios.lambda_context Effects.initial in
  Effects.outcome r
  = Py.Ok (LambdaHandler.mkEnvelope 500 None
             (Py.PDict [("error", Py.PStr (Py.exn_text (Scenarios.throttled "DeleteItem")))]))
  /\ Effects.deletes (Effects.history (Effects.final r))
     = [Py.PDict [("id", Py.PStr "item-1"); ("timestamp", Py.PInt 1)];
        Py.PDict [("id", Py.PStr "item-2"); ("timestamp", Py.PInt 2)]].
Proof.
  intros W r.
  destruct (cleanup_stops_at_failed_delete W Scenarios.scheduled_event
              Scenarios.lambda_context Effects.initial
              (Py.PDict [("Items", Py.PList Scenarios.three_expired)])
              [Scenarios.expired "item-1" 1] (Scenarios.expired "item-2" 2)
              [Scenarios.expired "item-3" 3]
              _ _ _ _ eq_refl eq_refl eq_refl eq_refl) as (Hanswer & _ & Hdeletes).
  split; [exact Hanswer | exact Hdeletes].
Defined.

(** C6 fails on the code: when the store refuses the scan of the cleanup,
    the 500 answer of the handler carries the text of the store's exception,
    while the same refusal met by the HTTP branch is answered with the fixed
    [Database error]. *)
Theorem scheduled_task_exposes_store_error :
  Effects.outcome
    (LambdaHandler.lambda_handler Scenarios.scan_refused_world
       Scenarios.scheduled_event Scenarios.lambda_context Effects.initial)
  = Py.Ok (LambdaHandler.mkEnvelope 500 None
             (Py.PDict [("error", Py.PStr (Py.exn_text (Scenarios.throttled "Scan")))]))
  /\ Py.exn_text (Scenarios.throttled "Scan")
     = "An error occurred (ProvisionedThroughputExceededException) when calling the Scan operation: Rate exceeded"
  /\ Effects.outcome
       (LambdaHandler.lambda_handler Scenarios.scan_refused_world
          Scenarios.http_items_event Scenarios.lambda_context Effects.initial)
     = Py.Ok (LambdaHandler.mkEnvelope 500 None
                (Py.PDict [("error", Py.PStr "Database error")])).
Proof.
  repeat split; vm_compute; reflexivity.
Qed.

(* ===================================================================== *)
(** * The storage-batch handler *)
(* ===================================================================== *)

Section StorageBatch.
Import Py Effects LambdaHandler.
#[local] Open Scope py_scope.
#[local] Open Scope list_scope.

Variable W : world.

Lemma puts_app h1 h2 : puts (h1 ++ h2) = puts h1 ++ puts h2.
Proof. unfold puts. apply flat_map_app. Qed.

Lemma s3_record_shaped_inv record :
  s3_record_shaped record = true ->
  exists bucket key,
    rbind (getitem record "s3") (fun s3 =>
      rbind (getitem s3 "bucket") (fun b => getitem b "name")) = Ok bucket
    /\ rbind (getitem record "s3") (fun s3 =>
         rbind (getitem s3 "object") (fun o => getitem o "key")) = Ok (PStr key).
Proof.
  unfold s3_record_shaped. intros H.
  apply andb_true_iff in H. destruct H as [Hb Hk].
  destruct (rbind (getitem record "s3") (fun s3 =>
              rbind (getitem s3 "bucket") (fun b => getitem b "name")))
    as [bucket|]; [|discriminate].
  destruct (rbind (getitem record "s3") (fun s3 =>
              rbind (getitem s3 "object") (fun o => getitem o "key")))
    as [[| | | |key| |]|]; try discriminate.
  eauto.
Qed.

(** A turn on a well-shaped record asks the store for one put, after two
    readings of the clock; when the put raises a [ClientError] the turn logs
    it and returns all the same. *)
Lemma s3_record_swallows record s :
  s3_record_shaped record = true ->
  (forall h item e, table_put_item W h item = Raise e -> is_client_error e = true) ->
  exists s' item info,
    s3_record W record s = (Ok tt, s')
    /\ history s' = history s ++ [UtcNow; UtcNow; PutItem item]
    /\ logged s'
       = logged s ++ info
         :: match table_put_item W (history s ++ [UtcNow; UtcNow]) item with
            | Ok _ => []
            | Raise e =>
                [(ERROR, FString "Failed to store metadata: {}" [PStr (exn_text e)])]
            end.
Proof.
  intros Hshape Hput.
  destruct (s3_record_shaped_inv _ Hshape) as (bucket & key & Hb & Hk).
  unfold s3_record. rewrite Hb, Hk.
  rewrite !(bind_lift_ok _ _ _ _ eq_refl).
  unfold bind at 1. rewrite log_run.
  unfold try_except_ClientError, store_metadata, bind, lift, utcnow, put_item,
    perform, ret, log.
  cbn [py_replace_slash history logged].
  rewrite <- !app_assoc. cbn [app].
  match goal with
  | |- context [table_put_item W ?h ?i] =>
      exists (mkState (history s ++ [UtcNow; UtcNow; PutItem i])
                (logged s ++ (INFO, FString "Processing S3 object: s3://{}/{}"
                                      [bucket; PStr key])
                 :: match table_put_item W h i with
                    | Ok _ => []
                    | Raise e =>
                        [(ERROR, FString "Failed to store metadata: {}"
                                   [PStr (exn_text e)])]
                    end)), i;
      eexists;
      destruct (table_put_item W h i) as [v|e] eqn:E
  end.
  - repeat split.
  - rewrite (Hput _ _ _ E). cbn [history logged].
    rewrite <- app_assoc. repeat split.
Qed.

Lemma s3_loop_swallows records :
  Forall (fun record => s3_record_shaped record = true) records ->
  (forall h item e, table_put_item W h item = Raise e -> is_client_error e = true) ->
  forall s,
  exists s',
    s3_loop W records s = (Ok tt, s')
    /\ List.length (puts (history s'))
       = (List.length (puts (history s)) + List.length records)%nat.
Proof.
  intros Hshape Hput. induction Hshape as [|record rest Hr _ IH]; intros s.
  - exists s. split; [reflexivity | cbn; lia].
  - destruct (s3_record_swallows record s Hr Hput) as (s1 & item & info & H1 & Hh & _).
    destruct (IH s1) as (s2 & H2 & Hn).
    exists s2. cbn [s3_loop]. rewrite (bind_ok _ _ _ _ _ H1). split; [exact H2|].
    rewrite Hn, Hh, puts_app, length_app. cbn. lia.
Qed.

(** C7, as amended: on a batch whose records all carry a bucket name and a
    string object key, in a world whose put fails with [ClientError] only,
    every record's put is attempted and the answer is 200 with the number of
    records of the batch, whatever the puts answered. *)
Theorem s3_batch_swallows_client_errors event context s records :
  py_get event "Records" (PList []) = Ok (PList records) ->
  forallb s3_record_shaped records = true ->
  (forall h item e, table_put_item W h item = Raise e -> is_client_error e = true) ->
  let r := process_s3_event W event context s in
  outcome r
  = Ok (mkEnvelope 200 None
          (PDict [("processed", PInt (Z.of_nat (List.length records)))]))
  /\ List.length (puts (history (final r)))
     = (List.length (puts (history s)) + List.length records)%nat.
Proof.
  intros Hrecords Hshape Hput r.
  assert (Hall : Forall (fun record => s3_record_shaped record = true) records).
  { apply Forall_forall. intros x Hx.
    now apply (proj1 (forallb_forall _ _) Hshape). }
  destruct (s3_loop_swallows records Hall Hput s) as (s1 & Hloop & Hn).
  assert (Hr : r = (Ok (mkEnvelope 200 None
                          (PDict [("processed",
                                   PInt (Z.of_nat (List.length records)))])), s1)).
  { subst r. unfold process_s3_event. rewrite Hrecords. cbn [rbind py_iter py_len].
    rewrite (bind_lift_ok _ _ _ _ eq_refl).
    rewrite (bind_ok _ _ _ _ _ Hloop).
    reflexivity. }
  rewrite Hr. cbn [outcome final fst snd]. split; [reflexivity | exact Hn].
Qed.

End StorageBatch.

Lemma s3_batch_swallows_client_errors_witness :
  Effects.outcome
    (LambdaHandler.process_s3_event Scenarios.put_refused_world
       Scenarios.s3_event Scenarios.lambda_context Effects.initial)
  = Py.Ok (LambdaHandler.mkEnvelope 200 None (Py.PDict [("processed", Py.PInt 2)])).
Proof.
  refine (proj1 (s3_batch_swallows_client_errors Scenarios.put_refused_world
                   Scenarios.s3_event Scenarios.lambda_context Effects.initial
                   [Scenarios.s3_put "uploads" "2024/a.jpg";
                    Scenarios.s3_put "uploads" "b.csv"]
                   eq_refl eq_refl _)).
  intros h item e H. cbn in H. inversion H. reflexivity.
Defined.

(** C7, as stated, fails: a record with the marker and no bucket under it
    raises before the [try], and the handler raises with it. *)
Lemma s3_bare_record_aborts :
  ~ LambdaHandler.reports_whole_batch Scenarios.quiet_world
      Scenarios.s3_bare_event Scenarios.lambda_context Effects.initial.
Proof.
  intros H. specialize (H _ eq_refl). vm_compute in H. discriminate.
Qed.

(* ===================================================================== *)
(** * The entry point *)
(* ===================================================================== *)

Section EntryPoint.
Import Py Effects LambdaHandler.
#[local] Open Scope py_scope.
#[local] Open Scope list_scope.

Variable W : world.

Lemma answers_ret codes answer :
  In (statusCode answer) codes -> answers codes (ret answer).
Proof. intros H s a s' E. inversion E; subst. exact H. Qed.

Lemma answers_bind {A} codes (m : M A) (f : A -> M envelope) :
  (forall a, answers codes (f a)) -> answers codes (bind m f).
Proof.
  intros H s answer s' E. unfold bind in E.
  destruct (m s) as [[a|e] s1]; [|discriminate].
  eapply H; eauto.
Qed.

Lemma answers_try codes (m : M envelope) h :
  answers codes m -> (forall e, answers codes (h e)) ->
  answers codes (try_except m h).
Proof.
  intros Hm Hh s answer s' E. unfold try_except in E.
  destruct (m s) as [[a|e] s1] eqn:Em.
  - inversion E; subst. eapply Hm; eauto.
  - eapply Hh; eauto.
Qed.

Lemma answers_try_ClientError codes (m : M envelope) h :
  answers codes m -> (forall e, answers codes (h e)) ->
  answers codes (try_except_ClientError m h).
Proof.
  intros Hm Hh s answer s' E. unfold try_except_ClientError in E.
  destruct (m s) as [[a|e] s1] eqn:Em.
  - inversion E; subst. eapply Hm; eauto.
  - destruct (is_client_error e); [|discriminate]. eapply Hh; eauto.
Qed.

Lemma answers_more codes codes' m :
  incl codes codes' -> answers codes m -> answers codes' m.
Proof. intros Hi Hm s answer s' E. apply Hi. eapply Hm; eauto. Qed.

Ltac answer_step :=
  first [ apply answers_ret; cbn; tauto
        | apply answers_bind; intros
        | apply answers_try_ClientError; intros
        | apply answers_try; intros ].

Lemma process_dynamodb_stream_answers event context :
  answers [200] (process_dynamodb_stream W event context).
Proof. unfold process_dynamodb_stream. repeat answer_step. Qed.

Lemma process_api_gateway_request_answers event context :
  answers [200; 404; 500] (process_api_gateway_request W event context).
Proof.
  unfold process_api_gateway_request. do 3 answer_step.
  match goal with |- context [if ?c then _ else _] => destruct c end;
    repeat answer_step.
Qed.

Lemma process_scheduled_task_answers event context :
  answers [200; 500] (process_scheduled_task W event context).
Proof. unfold process_scheduled_task. repeat answer_step. Qed.

Lemma process_s3_event_answers event context :
  answers [200] (process_s3_event W event context).
Proof. unfold process_s3_event. repeat answer_step. Qed.

Lemma dispatch_answers event context :
  answers [200; 400; 404; 500] (dispatch W event context).
Proof.
  unfold dispatch. apply answers_bind. intros event_source.
  repeat match goal with
         | |- context [if String.eqb event_source ?t then _ else _] =>
             destruct (String.eqb event_source t)
         end.
  - eapply answers_more; [|apply process_dynamodb_stream_answers].
    intros x [<-|[]]; cbn; tauto.
  - eapply answers_more; [|apply process_api_gateway_request_answers].
    intros x [<-|[<-|[<-|[]]]]; cbn; tauto.
  - eapply answers_more; [|apply process_scheduled_task_answers].
    intros x [<-|[<-|[]]]; cbn; tauto.
  - eapply answers_more; [|apply process_s3_event_answers].
    intros x [<-|[]]; cbn; tauto.
  - repeat answer_step.
Qed.

(** C10: when the classifier returns on the event and the context has a
    [request_id], the entry point returns an answer whose status code is
    200, 400, 404 or 500; an exception raised by the dispatch or by the
    handler it selects is answered by the fixed 500 of the catch-all. *)
Theorem lambda_handler_always_answers event context s tag request_id :
  determine_event_source event = Ok tag ->
  getattr context "request_id" = Ok request_id ->
  let entered :=
    mkState (history s)
      ((logged s ++ [(INFO, FString "Lambda invoked. Request ID: {}" [request_id])])
       ++ [(INFO, FString "Event source: {}" [PStr tag])]) in
  (exists answer,
      outcome (lambda_handler W event context s) = Ok answer
      /\ In (statusCode answer) [200; 400; 404; 500])
  /\ (forall e s',
        dispatch W event context entered = (Raise e, s') ->
        outcome (lambda_handler W event context s)
        = Ok (mkEnvelope 500 None (PDict [("error", PStr "Internal error")]))).
Proof.
  intros Htag Hattr entered.
  assert (Hrun : lambda_handler W event context s
                 = try_except (dispatch W event context)
                     (fun e =>
                        log ERROR "Error processing event: {}" [PStr (exn_text e)] ;;
                        body <- lift (json_dumps (PDict [("error", PStr "Internal error")])) ;;
                        ret (mkEnvelope 500 None body)) entered).
  { unfold lambda_handler. rewrite Hattr, Htag.
    rewrite (bind_lift_ok _ _ _ _ eq_refl).
    unfold bind at 1. rewrite log_run.
    rewrite (bind_lift_ok _ _ _ _ eq_refl).
    unfold bind at 1. rewrite log_run. reflexivity. }
  rewrite Hrun. unfold try_except, outcome.
  destruct (dispatch W event context entered) as [[answer|e] s1] eqn:E.
  - split.
    + exists answer. split; [reflexivity|].
      eapply dispatch_answers; eauto.
    + intros e s' H. discriminate.
  - split.
    + eexists. split; [reflexivity|]. cbn. tauto.
    + intros e' s' H. reflexivity.
Qed.

End EntryPoint.

(** A JSON array naming the two HTTP attributes is classified as an HTTP
    request; the handler then raises on [event.get], and the entry point
    answers 500. *)
Lemma lambda_handler_always_answers_witness :
  Effects.outcome
    (LambdaHandler.lambda_handler Scenarios.quiet_world
       Scenarios.list_shaped_event Scenarios.lambda_context Effects.initial)
  = Py.Ok (LambdaHandler.mkEnvelope 500 None
             (Py.PDict [("error", Py.PStr "Internal error")])).
Proof.
  refine (proj2 (lambda_handler_always_answers Scenarios.quiet_world
                   Scenarios.list_shaped_event Scenarios.lambda_context
                   Effects.initial "api_gateway"
                   (Py.PStr "c6af9ac6-7b61-11e6-9a41-93e8deadbeef")
                   eq_refl eq_refl) _ _ _).
  vm_compute. reflexivity.
Defined.

(* ===================================================================== *)
(** * The list operation *)
(* ===================================================================== *)

Section ListItems.
Import Py Effects AppFlask.
#[local] Open Scope py_scope.
#[local] Open Scope list_scope.

Variable W : world.

Lemma scans_app h1 h2 : scans (h1 ++ h2) = scans h1 ++ scans h2.
Proof. unfold scans. apply flat_map_app. Qed.

(** Once the limit has been read, the operation makes one call, the scan
    with that page size, whatever the store then answers. *)
Lemma list_items_history r s n :
  requested_limit r = Ok n ->
  history (final (list_items W r s))
  = history s ++ [Scan [("Limit", PInt (Z.min n 100))]].
Proof.
  intros Hn.
  unfold list_items, final, try_except_ClientError, bind, lift, scan, perform,
    ret, log.
  rewrite Hn. cbn [rbind history logged].
  destruct (table_scan W (history s) [("Limit", PInt (Z.min n 100))])
    as [response|e]; cbn [snd history].
  - destruct (py_get response "Items" (PList [])) as [items|e];
      [|destruct (is_client_error e); [|reflexivity];
        destruct (rbind (getitem (exn_response e) "Error")
                    (fun error => getitem error "Message")); reflexivity].
    destruct (py_len items) as [count|e];
      [|destruct (is_client_error e); [|reflexivity];
        destruct (rbind (getitem (exn_response e) "Error")
                    (fun error => getitem error "Message")); reflexivity].
    destruct (py_get response "LastEvaluatedKey" PNone) as [key|e];
      [reflexivity|].
    destruct (is_client_error e); [|reflexivity].
    destruct (rbind (getitem (exn_response e) "Error")
                (fun error => getitem error "Message")); reflexivity.
  - destruct (is_client_error e); [|reflexivity].
    destruct (rbind (getitem (exn_response e) "Error")
                (fun error => getitem error "Message")); reflexivity.
Qed.

(** The operation depends on the request through the limit alone. *)
Lemma list_items_by_limit r r' s :
  rbind (requested_limit r) (fun n => Ok (Z.min n 100))
  = rbind (requested_limit r') (fun n => Ok (Z.min n 100)) ->
  list_items W r s = list_items W r' s.
Proof. intros H. unfold list_items. now rewrite H. Qed.

(** C8, as amended: the limit the caller gives is capped at 100 and passed
    on as the page size of the one scan, with no lower bound; a limit of 100
    or more is treated exactly as a limit of 100. *)
Theorem list_items_limit_capped r s n :
  requested_limit r = Ok n ->
  scans (history (final (list_items W r s)))
  = scans (history s) ++ [[("Limit", PInt (Z.min n 100))]]
  /\ (100 <= n ->
      forall r', requested_limit r' = Ok 100 ->
                 list_items W r s = list_items W r' s).
Proof.
  intros Hn. split.
  - rewrite (list_items_history r s n Hn), scans_app. reflexivity.
  - intros Hbig r' Hr'. apply list_items_by_limit.
    rewrite Hn, Hr'. cbn [rbind]. f_equal. lia.
Qed.

(** C9: two requests that agree on every query parameter but [last_key] get
    the same run: the same scan is issued and, the store answering alike,
    the same response comes back. *)
Theorem list_items_ignores_last_key r1 r2 s :
  (forall key, key <> "last_key" ->
               args_get key (args r1) = args_get key (args r2)) ->
  list_items W r1 s = list_items W r2 s.
Proof.
  intros Hsame. apply list_items_by_limit.
  unfold requested_limit. rewrite (Hsame "limit"); [reflexivity|].
  discriminate.
Qed.

End ListItems.

Lemma list_items_limit_capped_witness :
  Effects.scans
    (Effects.history
       (Effects.final
          (AppFlask.list_items Scenarios.quiet_world
             (Scenarios.list_request "500" None) Effects.initial)))
  = [[("Limit", Py.PInt 100)]].
Proof.
  exact (proj1 (list_items_limit_capped Scenarios.quiet_world
                  (Scenarios.list_request "500" None) Effects.initial 500
                  eq_refl)).
Defined.

(** C8, as stated, fails: a limit of 0 reaches the store as it is. *)
Lemma list_items_limit_zero_unclamped :
  ~ AppFlask.page_sizes_clamped Scenarios.quiet_world
      (Scenarios.list_request "0" None).
Proof.
  intros H. specialize (H 0 (or_introl eq_refl)). lia.
Qed.

Lemma list_items_ignores_last_key_witness :
  AppFlask.list_items Scenarios.quiet_world
    (Scenarios.list_request "25" None) Effects.initial
  = AppFlask.list_items Scenarios.quiet_world
      (Scenarios.list_request "25" (Some "eyJpZCI6Iml0ZW0tOSJ9")) Effects.initial.
Proof.
  apply (list_items_ignores_last_key Scenarios.quiet_world
           (Scenarios.list_request "25" None)
           (Scenarios.list_request "25" (Some "eyJpZCI6Iml0ZW0tOSJ9"))
           Effects.initial).
  intros key Hkey. cbn.
  destruct (String.eqb key "limit"); [reflexivity|].
  destruct (String.eqb_spec key "last_key"); [contradiction | reflexivity].
Defined.

(* ===================================================================== *)
(** * More on the classifier *)
(* ===================================================================== *)

Section ClassifierTable.
Import Py Effects LambdaHandler Scenarios.

(** With a non-empty [Records] list, the answer is read off the first
    record. *)
Lemma classify_nonempty_records d first rest :
  lookup "Records" d = Some (PList (first :: rest)) ->
  determine_event_source (PDict d)
  = rbind (contains "dynamodb" first) (fun is_stream =>
      if is_stream then Ok "dynamodb"
      else rbind (contains "s3" first) (fun is_s3 =>
             if is_s3 then Ok "s3" else Ok "unknown")).
Proof.
  intros Hl. unfold determine_event_source.
  rewrite contains_dict, Hl. cbn [rbind].
  rewrite (getitem_dict_some _ _ _ Hl). cbn [rbind truthy getitem0].
  destruct (contains "dynamodb" first) as [[|]|]; reflexivity.
Qed.

(** X1: two events whose [Records] lists start with the same record are
    classified alike (or raise alike), whatever the later records and the
    other keys of the events are. *)
Theorem classify_reads_first_record_only d1 d2 first rest1 rest2 :
  lookup "Records" d1 = Some (PList (first :: rest1)) ->
  lookup "Records" d2 = Some (PList (first :: rest2)) ->
  determine_event_source (PDict d1) = determine_event_source (PDict d2).
Proof.
  intros H1 H2.
  rewrite (classify_nonempty_records _ _ _ H1).
  rewrite (classify_nonempty_records _ _ _ H2).
  reflexivity.
Qed.

Lemma classify_reads_first_record_only_witness :
  determine_event_source stream_event
  = determine_event_source
      (PDict [("httpMethod", PStr "GET"); ("path", PStr "/items");
              ("Records", PList [stream_insert "a"; PInt 7])]).
Proof.
  apply (classify_reads_first_record_only
           [("Records", PList [stream_insert "a"; stream_broken; stream_insert "b"])]
           [("httpMethod", PStr "GET"); ("path", PStr "/items");
            ("Records", PList [stream_insert "a"; PInt 7])]
           (stream_insert "a") [stream_broken; stream_insert "b"] [PInt 7]);
    reflexivity.
Defined.

(** X2: when the first record is a dict, the answer is [dynamodb] if it has
    that key (even beside an [s3] key), else [s3] if it has that one, else
    [unknown]. *)
Theorem classify_first_record_table d fields rest :
  lookup "Records" d = Some (PList (PDict fields :: rest)) ->
  determine_event_source (PDict d)
  = Ok (match lookup "dynamodb" fields, lookup "s3" fields with
        | Some _, _ => "dynamodb"
        | None, Some _ => "s3"
        | None, None => "unknown"
        end).
Proof.
  intros Hl. rewrite (classify_nonempty_records _ _ _ Hl).
  rewrite !contains_dict. cbn [rbind].
  destruct (lookup "dynamodb" fields), (lookup "s3" fields); reflexivity.
Qed.

Lemma classify_first_record_table_witness :
  determine_event_source
    (PDict [("Records", PList [PDict [("s3", PDict []); ("dynamodb", PDict [])]])])
  = Ok "dynamodb".
Proof.
  apply (classify_first_record_table
           [("Records", PList [PDict [("s3", PDict []); ("dynamodb", PDict [])]])]
           [("s3", PDict []); ("dynamodb", PDict [])] []).
  reflexivity.
Defined.

(** X3: a dict event without a [Records] key is [api_gateway] when it has
    both [httpMethod] and [path], whatever its [source]; otherwise it is
    [cloudwatch_events] when its [source] is the string [aws.events], and
    [unknown] in every other case. *)
Theorem classify_without_records_table d :
  lookup "Records" d = None ->
  determine_event_source (PDict d)
  = Ok (match lookup "httpMethod" d, lookup "path" d with
        | Some _, Some _ => "api_gateway"
        | _, _ =>
            match lookup "source" d with
            | Some v => if py_eq_str v "aws.events"
                        then "cloudwatch_events" else "unknown"
            | None => "unknown"
            end
        end).
Proof.
  intros Hl. unfold determine_event_source.
  rewrite !contains_dict, Hl. cbn [rbind].
  destruct (lookup "httpMethod" d), (lookup "path" d); cbn [rbind];
    try reflexivity;
    destruct (lookup "source" d) as [v|] eqn:Hs; cbn [rbind];
    try reflexivity;
    rewrite (getitem_dict_some _ _ _ Hs); cbn [rbind];
    destruct (py_eq_str v "aws.events"); reflexivity.
Qed.

Lemma classify_without_records_table_witness :
  determine_event_source
    (PDict [("source", PStr "aws.events"); ("httpMethod", PStr "GET");
            ("path", PStr "/items")])
  = Ok "api_gateway".
Proof.
  apply (classify_without_records_table
           [("source", PStr "aws.events"); ("httpMethod", PStr "GET");
            ("path", PStr "/items")]).
  reflexivity.
Defined.

End ClassifierTable.

(* ===================================================================== *)
(** * More on the entry point and the HTTP branch *)
(* ===================================================================== *)

Section EntryPointEdges.
Import Py Effects LambdaHandler.
#[local] Open Scope py_scope.
#[local] Open Scope list_scope.

Variable W : world.

(** X4: the entry point raises exactly when the context has no
    [request_id] or the classifier raises on the event, and then with that
    very exception: both are evaluated for the log lines that stand before
    the [try].  No collaborator has been called by then. *)
Theorem lambda_handler_raises_before_try event context s e :
  outcome (lambda_handler W event context s) = Raise e
  <-> rbind (getattr context "request_id")
            (fun _ => determine_event_source event) = Raise e.
Proof.
  unfold lambda_handler, outcome.
  destruct (getattr context "request_id") as [request_id|e1]; cbn [rbind].
  - rewrite (bind_lift_ok _ _ _ _ eq_refl).
    unfold bind at 1. rewrite log_run.
    destruct (determine_event_source event) as [tag|e2].
    + rewrite (bind_lift_ok _ _ _ _ eq_refl).
      unfold bind at 1. rewrite log_run.
      unfold try_except.
      match goal with
      | |- context [dispatch W event context ?st] =>
          destruct (dispatch W event context st) as [[answer|e3] s1]
      end; cbn; split; discriminate.
    + rewrite (bind_lift_raise _ _ _ _ eq_refl). cbn [fst].
      split; intros H; injection H as ->; reflexivity.
  - rewrite (bind_lift_raise _ _ _ _ eq_refl). cbn [fst].
      split; intros H; injection H as ->; reflexivity.
Qed.

(** X5: in that case the store, the metrics and the notifications have not
    been touched. *)
Theorem lambda_handler_raise_calls_nothing event context s e :
  outcome (lambda_handler W event context s) = Raise e ->
  history (final (lambda_handler W event context s)) = history s.
Proof.
  unfold lambda_handler, outcome, final.
  destruct (getattr context "request_id") as [request_id|e1].
  - rewrite (bind_lift_ok _ _ _ _ eq_refl).
    unfold bind at 1 3. rewrite log_run.
    destruct (determine_event_source event) as [tag|e2].
    + rewrite !(bind_lift_ok _ _ _ _ eq_refl).
      unfold bind at 1 3. rewrite log_run.
      unfold try_except.
      match goal with
      | |- context [dispatch W event context ?st] =>
          destruct (dispatch W event context st) as [[answer|e3] s1]
      end; cbn; discriminate.
    + rewrite !(bind_lift_raise _ _ _ _ eq_refl). reflexivity.
  - rewrite !(bind_lift_raise _ _ _ _ eq_refl). reflexivity.
Qed.

(** X6: an event the classifier calls [unknown] is answered 400 with the
    fixed body, and no collaborator is called. *)
Theorem unknown_event_is_refused event context s request_id :
  getattr context "request_id" = Ok request_id ->
  determine_event_source event = Ok "unknown" ->
  outcome (lambda_handler W event context s)
  = Ok (mkEnvelope 400 None (PDict [("error", PStr "Unknown event source")]))
  /\ history (final (lambda_handler W event context s)) = history s.
Proof.
  intros Hattr Htag. unfold lambda_handler, dispatch.
  rewrite Hattr, Htag.
  split; reflexivity.
Qed.

(** X7: the HTTP branch answers 404 to every pair other than GET [/items],
    without calling the store. *)
Theorem api_gateway_unmatched_route event context s method path :
  py_get event "httpMethod" (PStr "GET") = Ok method ->
  py_get event "path" (PStr "/") = Ok path ->
  (py_eq_str method "GET" && py_eq_str path "/items")%bool = false ->
  outcome (process_api_gateway_request W event context s)
  = Ok (mkEnvelope 404 None (PDict [("error", PStr "Not found")]))
  /\ history (final (process_api_gateway_request W event context s)) = history s.
Proof.
  intros Hm Hp Hroute. unfold process_api_gateway_request.
  rewrite Hm, Hp.
  rewrite !(bind_lift_ok _ _ _ _ eq_refl).
  unfold bind at 1 3. rewrite log_run. rewrite Hroute.
  split; reflexivity.
Qed.


(** X9: when the scan answers, the handler returns 200 with the items if
    [json.dumps] accepts them; items holding a [Decimal], as the store's
    numbers are, make it raise [TypeError], which the handler does not
    catch. *)
Theorem api_gateway_scan_answer event context s response items :
  py_get event "httpMethod" (PStr "GET") = Ok (PStr "GET") ->
  py_get event "path" (PStr "/") = Ok (PStr "/items") ->
  table_scan W (history s) [("Limit", PInt 10)] = Ok response ->
  py_get response "Items" (PList []) = Ok items ->
  outcome (process_api_gateway_request W event context s)
  = (if json_serializable items
     then Ok (mkEnvelope 200 (Some [("Content-Type", "application/json")])
                (PDict [("items", items)]))
     else Raise (builtin_error TypeError
                   "Object of type Decimal is not JSON serializable")).
Proof.
  intros Hm Hp Hscan Hitems. unfold process_api_gateway_request.
  rewrite Hm, Hp.
  rewrite !(bind_lift_ok _ _ _ _ eq_refl).
  unfold bind at 1. rewrite log_run.
  change (py_eq_str (PStr "GET") "GET" && py_eq_str (PStr "/items") "/items")%bool
    with true.
  cbn iota.
  unfold try_except_ClientError, bind, scan, perform, lift, log, ret, outcome.
  cbn [history logged]. rewrite Hscan, Hitems.
  unfold json_dumps. cbn [json_serializable forallb snd andb].
  rewrite andb_true_r.
  destruct (json_serializable items); reflexivity.
Qed.

End EntryPointEdges.

Lemma lambda_handler_raise_calls_nothing_witness :
  Effects.history
    (Effects.final
       (LambdaHandler.lambda_handler Scenarios.quiet_world Py.PNone
          Scenarios.lambda_context Effects.initial)) = [].
Proof.
  exact (lambda_handler_raise_calls_nothing Scenarios.quiet_world Py.PNone
           Scenarios.lambda_context Effects.initial
           (Py.builtin_error Py.TypeError
              "argument of type 'NoneType' is not iterable") eq_refl).
Defined.

Lemma unknown_event_is_refused_witness :
  Effects.outcome
    (LambdaHandler.lambda_handler Scenarios.quiet_world (Py.PDict [])
       Scenarios.lambda_context Effects.initial)
  = Py.Ok (LambdaHandler.mkEnvelope 400 None
             (Py.PDict [("error", Py.PStr "Unknown event source")])).
Proof.
  exact (proj1 (unknown_event_is_refused Scenarios.quiet_world (Py.PDict [])
                  Scenarios.lambda_context Effects.initial
                  (Py.PStr "c6af9ac6-7b61-11e6-9a41-93e8deadbeef")
                  eq_refl eq_refl)).
Defined.

Lemma api_gateway_unmatched_route_witness :
  Effects.outcome
    (LambdaHandler.process_api_gateway_request Scenarios.quiet_world
       (Py.PDict [("httpMethod", Py.PStr "POST"); ("path", Py.PStr "/items")])
       Scenarios.lambda_context Effects.initial)
  = Py.Ok (LambdaHandler.mkEnvelope 404 None
             (Py.PDict [("error", Py.PStr "Not found")])).
Proof.
  exact (proj1 (api_gateway_unmatched_route Scenarios.quiet_world
                  (Py.PDict [("httpMethod", Py.PStr "POST");
                             ("path", Py.PStr "/items")])
                  Scenarios.lambda_context Effects.initial
                  (Py.PStr "POST") (Py.PStr "/items")
                  eq_refl eq_refl eq_refl)).
Defined.


Lemma api_gateway_scan_answer_witness :
  Effects.outcome
    (LambdaHandler.process_api_gateway_request
       (Scenarios.store_world [Scenarios.decimal_item] None None None)
       Scenarios.http_items_event Scenarios.lambda_context Effects.initial)
  = Py.Raise (Py.builtin_error Py.TypeError
                "Object of type Decimal is not JSON serializable").
Proof.
  exact (api_gateway_scan_answer
           (Scenarios.store_world [Scenarios.decimal_item] None None None)
           Scenarios.http_items_event Scenarios.lambda_context Effects.initial
           (Py.PDict [("Items", Py.PList [Scenarios.decimal_item])])
           (Py.PList [Scenarios.decimal_item])
           eq_refl eq_refl eq_refl eq_refl).
Defined.

(* ===================================================================== *)
(** * Side channels and the turns of the stream loop *)
(* ===================================================================== *)

Section SideChannels.
Import Py Effects LambdaHandler.
#[local] Open Scope py_scope.
#[local] Open Scope list_scope.

Variable W : world.

Lemma publish_metric_run name value s :
  publish_metric W name value s
  = (Ok tt,
     mkState
       (history s
        ++ [UtcNow;
            PutMetricData "Lambda/Processing" name value "Count"
              (clock W (history s))])
       (logged s
        ++ match cloudwatch_put_metric_data W (history s ++ [UtcNow])
                   "Lambda/Processing" name value "Count" (clock W (history s))
           with
           | Ok _ => []
           | Raise e =>
               [(WARNING, FString "Failed to publish metric: {}" [PStr (exn_text e)])]
           end)).
Proof.
  unfold publish_metric, try_except, bind, utcnow, put_metric_data, perform,
    ret, log.
  cbn [history logged]. rewrite <- app_assoc. cbn [app].
  destruct (cloudwatch_put_metric_data W _ _ _ _ _ _);
    cbn [history logged]; [now rewrite app_nil_r | reflexivity].
Qed.

(** X10: publishing a metric never raises: the clock is read, the sink is
    called once, and a failure of the sink only leaves a warning in the
    log. *)
Theorem publish_metric_is_best_effort name value s :
  outcome (publish_metric W name value s) = Ok tt
  /\ history (final (publish_metric W name value s))
     = history s
       ++ [UtcNow;
           PutMetricData "Lambda/Processing" name value "Count"
             (clock W (history s))]
  /\ (forall e,
        cloudwatch_put_metric_data W (history s ++ [UtcNow])
          "Lambda/Processing" name value "Count" (clock W (history s)) = Raise e ->
        logged (final (publish_metric W name value s))
        = logged s
          ++ [(WARNING, FString "Failed to publish metric: {}" [PStr (exn_text e)])]).
Proof.
  rewrite publish_metric_run. cbn [outcome final fst snd history logged].
  repeat split. intros e He. now rewrite He.
Qed.

Lemma send_notification_run message s :
  exists entries,
    send_notification W message s
    = (Ok tt,
       mkState
         (history s
          ++ match getenv W "SNS_TOPIC_ARN" with
             | Some (String c arn) =>
                 [Publish (String c arn) "Lambda Notification" message]
             | _ => []
             end)
         (logged s ++ entries)).
Proof.
  unfold send_notification.
  destruct (getenv W "SNS_TOPIC_ARN") as [[|c arn]|].
  - rewrite log_run, app_nil_r. eauto.
  - unfold try_except, bind, publish, perform, log. cbn [history logged].
    destruct (sns_publish W _ _ _ _); eauto.
  - rewrite log_run, app_nil_r. eauto.
Qed.

(** X11: sending a notification never raises; without a configured topic
    (unset or empty [SNS_TOPIC_ARN]) nothing is published, and with one the
    message is published exactly once, on that topic. *)
Theorem send_notification_is_best_effort message s :
  outcome (send_notification W message s) = Ok tt
  /\ history (final (send_notification W message s))
     = history s
       ++ match getenv W "SNS_TOPIC_ARN" with
          | Some (String c arn) =>
              [Publish (String c arn) "Lambda Notification" message]
          | _ => []
          end.
Proof.
  destruct (send_notification_run message s) as [entries ->].
  split; reflexivity.
Qed.

(** A turn of the stream loop adds to the history at most the publication
    of one notification, and only when the record's [eventName] is the
    string INSERT. *)
Lemma stream_record_history record s :
  history (final (stream_record W record s)) = history s
  \/ (getitem record "eventName" = Ok (PStr "INSERT")
      /\ exists topic message,
           history (final (stream_record W record s))
           = history s ++ [Publish topic "Lambda Notification" message]).
Proof.
  unfold stream_record, final, bind, lift, log, ret.
  destruct (getitem record "eventName") as [event_name|e]; [|now left].
  destruct (rbind (getitem record "dynamodb")
              (fun d => py_get d "Keys" (PDict []))) as [keys|e]; [|now left].
  destruct (rbind (getitem record "dynamodb")
              (fun d => py_get d "NewImage" (PDict []))) as [new_image|e];
    [|now left].
  destruct (rbind (getitem record "dynamodb")
              (fun d => py_get d "OldImage" (PDict []))) as [old_image|e];
    [|now left].
  cbn beta iota.
  destruct (py_eq_str event_name "INSERT") eqn:Hinsert.
  - assert (event_name = PStr "INSERT") as ->.
    { destruct event_name; try discriminate. cbn in Hinsert.
      apply String.eqb_eq in Hinsert. now subst. }
    destruct (deserialize_dynamodb_item W keys); [|now left].
    cbn beta iota.
    destruct (contains "user_id" new_image) as [[|]|]; try now left.
    destruct (rbind (getitem new_image "user_id") (fun u => getitem u "S"))
      as [user|]; [|now left].
    match goal with
    | |- context [send_notification W ?m ?a] =>
        destruct (send_notification_run m a) as [entries ->]
    end.
    cbn [snd history].
    destruct (getenv W "SNS_TOPIC_ARN") as [[|c arn]|].
    + left. now rewrite app_nil_r.
    + right. split; [reflexivity|]. eauto.
    + left. now rewrite app_nil_r.
  - left.
    destruct (py_eq_str event_name "MODIFY");
      [| destruct (py_eq_str event_name "REMOVE")];
      try (destruct (deserialize_dynamodb_item W keys)); reflexivity.
Qed.

(** X12: a record whose [eventName] is not the string INSERT never causes a
    call: its turn leaves the history as it was, whether it succeeds or
    raises. *)
Theorem stream_record_calls_only_on_insert record s :
  getitem record "eventName" <> Ok (PStr "INSERT") ->
  history (final (stream_record W record s)) = history s.
Proof.
  intros Hname.
  destruct (stream_record_history record s) as [H|[H _]];
    [exact H | contradiction].
Qed.

(** X13: a record with an [eventName] other than INSERT, MODIFY and REMOVE
    and with a dict under [dynamodb] is processed: its turn returns, having
    only logged the event name. *)
Theorem stream_record_unrecognised_event record s name fields :
  getitem record "eventName" = Ok name ->
  py_eq_str name "INSERT" = false ->
  py_eq_str name "MODIFY" = false ->
  py_eq_str name "REMOVE" = false ->
  getitem record "dynamodb" = Ok (PDict fields) ->
  stream_record W record s
  = (Ok tt,
     mkState (history s)
       (logged s ++ [(INFO, FString "Processing DynamoDB {} event" [name])]))
  /\ malformed W record = false.
Proof.
  intros Hname Hi Hm Hr Hd.
  assert (Hrun : forall s0,
             stream_record W record s0
             = (Ok tt,
                mkState (history s0)
                  (logged s0
                   ++ [(INFO, FString "Processing DynamoDB {} event" [name])]))).
  { intros s0. unfold stream_record. rewrite Hname, Hd. cbn [rbind py_get].
    unfold bind, lift, log, ret. rewrite Hi, Hm, Hr. reflexivity. }
  split; [apply Hrun|].
  unfold malformed. rewrite Hrun. reflexivity.
Qed.

(** X14: a record that is processed has an [eventName] and a dict under
    [dynamodb]; a record lacking either is counted as failed. *)
Theorem processed_record_has_name_and_image record :
  malformed W record = false ->
  exists name fields,
    getitem record "eventName" = Ok name
    /\ getitem record "dynamodb" = Ok (PDict fields).
Proof.
  unfold malformed, raises, outcome, stream_record, bind, lift, log.
  destruct (getitem record "eventName") as [name|e]; [|discriminate].
  destruct (getitem record "dynamodb") as [image|e]; [|discriminate].
  destruct image; cbn [rbind py_get]; try discriminate.
  eauto.
Qed.

(** X15: deserializing an item keeps its keys in order and maps each value
    through the store library's deserializer. *)
Theorem deserialize_dynamodb_item_keeps_keys entries entries' :
  deserialize_dynamodb_item W (PDict entries) = Ok (PDict entries') ->
  map fst entries' = map fst entries
  /\ map (fun kv => Ok (snd kv)) entries'
     = map (fun kv => type_deserialize W (snd kv)) entries.
Proof.
  unfold deserialize_dynamodb_item.
  destruct (deserialize_entries W entries) as [d|e] eqn:E; cbn [rbind];
    [|discriminate].
  intros H. injection H as <-.
  revert d E. induction entries as [|[k v] rest IH]; intros d E.
  - cbn in E. injection E as <-. split; reflexivity.
  - cbn [deserialize_entries] in E.
    destruct (type_deserialize W v) as [v'|] eqn:Ev; cbn [rbind] in E;
      [|discriminate].
    destruct (deserialize_entries W rest) as [rest'|]; cbn [rbind] in E;
      [|discriminate].
    injection E as <-. destruct (IH rest' eq_refl) as [Hk Hv].
    cbn [map fst snd]. rewrite Hk, Hv, Ev. split; reflexivity.
Qed.

End SideChannels.

Lemma stream_record_calls_only_on_insert_witness :
  Effects.history
    (Effects.final
       (LambdaHandler.stream_record Scenarios.topic_world
          (Py.PDict [("eventName", Py.PStr "MODIFY");
                     ("dynamodb",
                      Py.PDict [("NewImage",
                                 Py.PDict [("user_id", Py.PDict [("S", Py.PStr "u1")])])])])
          Effects.initial)) = [].
Proof.
  apply (stream_record_calls_only_on_insert Scenarios.topic_world).
  discriminate.
Defined.

Lemma stream_record_unrecognised_event_witness :
  LambdaHandler.malformed Scenarios.quiet_world
    (Py.PDict [("eventName", Py.PStr "TRUNCATE"); ("dynamodb", Py.PDict [])])
  = false.
Proof.
  exact (proj2 (stream_record_unrecognised_event Scenarios.quiet_world
                  (Py.PDict [("eventName", Py.PStr "TRUNCATE");
                             ("dynamodb", Py.PDict [])])
                  Effects.initial (Py.PStr "TRUNCATE") []
                  eq_refl eq_refl eq_refl eq_refl eq_refl)).
Defined.

Lemma processed_record_has_name_and_image_witness :
  exists name fields,
    Py.getitem (Scenarios.stream_insert "a") "eventName" = Py.Ok name
    /\ Py.getitem (Scenarios.stream_insert "a") "dynamodb" = Py.Ok (Py.PDict fields).
Proof.
  apply (processed_record_has_name_and_image Scenarios.quiet_world
           (Scenarios.stream_insert "a")).
  reflexivity.
Defined.

Lemma deserialize_dynamodb_item_keeps_keys_witness :
  map fst [("id", Py.PStr "a"); ("active", Py.PBool true)] = ["id"; "active"]
  /\ map (fun kv => Py.Ok (snd kv)) [("id", Py.PStr "a"); ("active", Py.PBool true)]
     = map (fun kv => Scenarios.deserialize_scalar (snd kv))
           [("id", Py.PDict [("S", Py.PStr "a")]);
            ("active", Py.PDict [("BOOL", Py.PBool true)])].
Proof.
  apply (deserialize_dynamodb_item_keeps_keys Scenarios.quiet_world
           [("id", Py.PDict [("S", Py.PStr "a")]);
            ("active", Py.PDict [("BOOL", Py.PBool true)])]
           [("id", Py.PStr "a"); ("active", Py.PBool true)]).
  reflexivity.
Defined.

(* ===================================================================== *)
(** * What the batch handlers call *)
(* ===================================================================== *)

Section BatchCalls.
Import Py Effects LambdaHandler.
#[local] Open Scope py_scope.
#[local] Open Scope list_scope.

Variable W : world.

Lemma metrics_app h1 h2 : metrics (h1 ++ h2) = metrics h1 ++ metrics h2.
Proof. unfold metrics. apply flat_map_app. Qed.

Lemma store_calls_app h1 h2 :
  store_calls (h1 ++ h2) = store_calls h1 ++ store_calls h2.
Proof. unfold store_calls. apply filter_app. Qed.

Lemma metrics_of_deletes keys : metrics (map DeleteItem keys) = [].
Proof. induction keys as [|k keys IH]; [reflexivity | exact IH]. Qed.

(** The history after the loop of the stream handler has the same metrics
    and the same store calls as before it. *)
Lemma stream_loop_quiet records :
  forall processed failed s,
    metrics (history (final (stream_loop W records processed failed s)))
    = metrics (history s)
    /\ store_calls (history (final (stream_loop W records processed failed s)))
       = store_calls (history s).
Proof.
  induction records as [|record rest IH]; intros processed failed s.
  - split; reflexivity.
  - cbn [stream_loop]. unfold bind, try_except, final, ret, log.
    pose proof (stream_record_history W record s) as Hturn.
    unfold final in Hturn.
    destruct (stream_record W record s) as [[[]|e] s1];
      cbn [snd fst history logged] in *;
      match goal with
      | |- context [stream_loop W rest ?p ?f ?st] =>
          destruct (IH p f st) as [Hm Hs]; unfold final in Hm, Hs;
          rewrite Hm, Hs; cbn [history]
      end;
      destruct Hturn as [->|(_ & topic & message & ->)];
      try (split; reflexivity);
      rewrite metrics_app, store_calls_app; cbn; now rewrite !app_nil_r.
Qed.

(** X16: the stream handler never calls the store, and after the loop it
    sends the count of processed records as one metric, followed by the
    count of failed records only when there is at least one. *)
Theorem stream_batch_calls event context s records :
  py_get event "Records" (PList []) = Ok (PList records) ->
  let N := Z.of_nat (List.length records) in
  let M := malformed_count W records in
  let r := process_dynamodb_stream W event context s in
  store_calls (history (final r)) = store_calls (history s)
  /\ metrics (history (final r))
     = metrics (history s)
       ++ ("Lambda/Processing", "StreamRecordsProcessed", N - M)
          :: (if 0 <? M
              then [("Lambda/Processing", "StreamRecordsFailed", M)]
              else []).
Proof.
  intros Hrecords N M r. subst r.
  destruct (stream_loop_quiet records 0 0 s) as [Hm Hs]. unfold final in Hm, Hs.
  destruct (stream_loop_counts W records 0 0 s) as [s1 H1].
  rewrite H1 in Hm, Hs. cbn [snd] in Hm, Hs.
  replace (0 + (Z.of_nat (List.length records) - malformed_count W records))
    with (N - M) in H1 by (subst N M; lia).
  replace (0 + malformed_count W records) with M in H1 by (subst M; lia).
  assert (Hrun :
            history (final (process_dynamodb_stream W event context s))
            = (history s1
               ++ [UtcNow;
                   PutMetricData "Lambda/Processing" "StreamRecordsProcessed"
                     (N - M) "Count" (clock W (history s1))])
              ++ (if 0 <? M
                  then [UtcNow;
                        PutMetricData "Lambda/Processing" "StreamRecordsFailed"
                          M "Count"
                          (clock W
                             (history s1
                              ++ [UtcNow;
                                  PutMetricData "Lambda/Processing"
                                    "StreamRecordsProcessed" (N - M) "Count"
                                    (clock W (history s1))]))]
                  else [])).
  { unfold process_dynamodb_stream, final.
    rewrite Hrecords. cbn [rbind py_iter].
    rewrite (bind_lift_ok _ _ _ _ eq_refl).
    rewrite (bind_ok _ _ _ _ _ H1). cbn [fst snd].
    unfold bind at 1. rewrite publish_metric_run.
    destruct (0 <? M).
    - unfold bind at 1. rewrite publish_metric_run.
      unfold bind, log, lift, ret, json_dumps.
      cbn [json_serializable forallb andb snd fst history logged].
      reflexivity.
    - unfold bind, log, lift, ret, json_dumps.
      cbn [json_serializable forallb andb snd fst history logged].
      now rewrite app_nil_r. }
  rewrite Hrun.
  rewrite !store_calls_app, !metrics_app, Hm, Hs.
  destruct (0 <? M); cbn; rewrite ?app_nil_r, <- ?app_assoc; split; reflexivity.
Qed.

(** X17: when the scan answers and every delete succeeds, the cleanup
    answers 200 with the number of items, has asked the store to delete each
    item by its [id] and [timestamp], in order, and sends that number as one
    metric. *)
Theorem cleanup_deletes_every_item event context s response items k s1 :
  let filter := expired_filter (dt_epoch_ms (clock W (history s))) in
  table_scan W (history s ++ [UtcNow]) filter = Ok response ->
  py_get response "Items" (PList []) = Ok (PList items) ->
  delete_loop W items 0
    (mkState ((history s ++ [UtcNow]) ++ [Scan filter])
       (logged s ++ [(INFO, FString "Executing scheduled task" [])]))
  = (Ok k, s1) ->
  let r := process_scheduled_task W event context s in
  outcome r
  = Ok (mkEnvelope 200 None
          (PDict [("deleted", PInt (Z.of_nat (List.length items)))]))
  /\ deletes (history (final r)) = deletes (history s) ++ keys_of items
  /\ metrics (history (final r))
     = metrics (history s)
       ++ [("Lambda/Processing", "ExpiredItemsDeleted",
            Z.of_nat (List.length items))].
Proof.
  intros filter Hscan Hitems Hloop r. subst r.
  destruct (delete_loop_history W _ _ _ _ _ Hloop) as (Hh & _ & Hk).
  cbn [history] in Hh. rewrite Z.add_0_l in Hk. subst k.
  assert (Hrun : exists entries,
             process_scheduled_task W event context s
             = (Ok (mkEnvelope 200 None
                      (PDict [("deleted", PInt (Z.of_nat (List.length items)))])),
                mkState
                  (history s1
                   ++ [UtcNow;
                       PutMetricData "Lambda/Processing" "ExpiredItemsDeleted"
                         (Z.of_nat (List.length items)) "Count"
                         (clock W (history s1))])
                  entries)).
  { unfold process_scheduled_task. unfold bind at 1. rewrite log_run.
    eexists. erewrite try_except_ok; [reflexivity|].
    unfold bind at 1. unfold utcnow at 1, perform at 1. cbn [history logged].
    unfold bind at 1. unfold scan at 1, perform at 1. cbn [history logged].
    fold filter. rewrite Hscan, Hitems. cbn [rbind py_iter].
    rewrite (bind_lift_ok _ _ _ _ eq_refl).
    rewrite (bind_ok _ _ _ _ _ Hloop).
    unfold bind at 1. rewrite log_run.
    unfold bind at 1. rewrite publish_metric_run.
    reflexivity. }
  destruct Hrun as [entries Hrun]. rewrite Hrun.
  cbn [outcome final fst snd history].
  split; [reflexivity|].
  rewrite Hh. split.
  - rewrite !deletes_app, deletes_of_deletes. cbn. now rewrite !app_nil_r.
  - rewrite !metrics_app, metrics_of_deletes. cbn. now rewrite !app_nil_r.
Qed.

End BatchCalls.

Lemma stream_batch_calls_witness :
  Effects.metrics
    (Effects.history
       (Effects.final
          (LambdaHandler.process_dynamodb_stream Scenarios.quiet_world
             Scenarios.stream_event Scenarios.lambda_context Effects.initial)))
  = [("Lambda/Processing", "StreamRecordsProcessed", 2);
     ("Lambda/Processing", "StreamRecordsFailed", 1)].
Proof.
  exact (proj2 (stream_batch_calls Scenarios.quiet_world Scenarios.stream_event
                  Scenarios.lambda_context Effects.initial
                  [Scenarios.stream_insert "a"; Scenarios.stream_broken;
                   Scenarios.stream_insert "b"] eq_refl)).
Defined.

Lemma cleanup_deletes_every_item_witness :
  Effects.outcome
    (LambdaHandler.process_scheduled_task
       (Scenarios.store_world Scenarios.three_expired None None None)
       Scenarios.scheduled_event Scenarios.lambda_context Effects.initial)
  = Py.Ok (LambdaHandler.mkEnvelope 200 None (Py.PDict [("deleted", Py.PInt 3)])).
Proof.
  refine (proj1 (cleanup_deletes_every_item
                   (Scenarios.store_world Scenarios.three_expired None None None)
                   Scenarios.scheduled_event Scenarios.lambda_context
                   Effects.initial
                   (Py.PDict [("Items", Py.PList Scenarios.three_expired)])
                   Scenarios.three_expired _ _ eq_refl eq_refl eq_refl)).
Defined.

(* ===================================================================== *)
(** * More on the storage-batch handler *)
(* ===================================================================== *)

Section StorageBatchEdges.
Import Py Effects LambdaHandler.
#[local] Open Scope py_scope.
#[local] Open Scope list_scope.

Variable W : world.

Lemma replace_slash_cons c s :
  replace_slash (String c s)
  = String (if Ascii.eqb c "/"%char then "-"%char else c) (replace_slash s).
Proof. reflexivity. Qed.

Lemma replace_slash_no_slash s : has_char "/"%char (replace_slash s) = false.
Proof.
  induction s as [|c s IH]; [reflexivity|].
  rewrite replace_slash_cons. unfold has_char in *.
  cbn [list_ascii_of_string existsb]. rewrite IH.
  destruct (Ascii.eqb c "/"%char) eqn:E; [reflexivity|].
  now rewrite Ascii.eqb_sym, E.
Qed.

Lemma replace_slash_fixed s :
  has_char "/"%char s = false -> replace_slash s = s.
Proof.
  induction s as [|c s IH]; [reflexivity|].
  unfold has_char in *. cbn [list_ascii_of_string existsb].
  intros H. apply orb_false_iff in H. destruct H as [Hc Hs].
  rewrite replace_slash_cons, (IH Hs), Ascii.eqb_sym, Hc. reflexivity.
Qed.

(** X18: the text that [key.replace('/', '-')] gives has no slash left and
    the length of the key, and replacing again changes nothing. *)
Theorem replace_slash_removes_slashes s :
  has_char "/"%char (replace_slash s) = false
  /\ String.length (replace_slash s) = String.length s
  /\ replace_slash (replace_slash s) = replace_slash s.
Proof.
  split; [apply replace_slash_no_slash|].
  split; [|apply replace_slash_fixed, replace_slash_no_slash].
  induction s as [|c s IH]; [reflexivity|].
  rewrite replace_slash_cons. cbn [String.length]. now rewrite IH.
Qed.

(** X19: the derived id does not tell object keys apart: a key with a slash
    and the same key with dashes for slashes are two different keys with one
    id. *)
Theorem derived_id_collides key :
  has_char "/"%char key = true ->
  replace_slash key <> key
  /\ ("s3-" ++ replace_slash (replace_slash key)
      = "s3-" ++ replace_slash key)%string.
Proof.
  intros Hslash. split.
  - intros Heq. pose proof (replace_slash_no_slash key) as Hnone.
    rewrite Heq in Hnone. congruence.
  - now rewrite (replace_slash_fixed _ (replace_slash_no_slash key)).
Qed.

Lemma s3_record_run record s bucket key :
  rbind (getitem record "s3") (fun s3 =>
    rbind (getitem s3 "bucket") (fun b => getitem b "name")) = Ok bucket ->
  rbind (getitem record "s3") (fun s3 =>
    rbind (getitem s3 "object") (fun o => getitem o "key")) = Ok (PStr key) ->
  let item := metadata_item bucket key (clock W (history s))
                (clock W (history s ++ [UtcNow])) in
  let info := (INFO, FString "Processing S3 object: s3://{}/{}" [bucket; PStr key]) in
  s3_record W record s
  = match table_put_item W (history s ++ [UtcNow; UtcNow]) item with
    | Ok _ =>
        (Ok tt, mkState (history s ++ [UtcNow; UtcNow; PutItem item])
                  (logged s ++ [info]))
    | Raise e =>
        if is_client_error e
        then (Ok tt,
              mkState (history s ++ [UtcNow; UtcNow; PutItem item])
                (logged s
                 ++ [info;
                     (ERROR, FString "Failed to store metadata: {}"
                               [PStr (exn_text e)])]))
        else (Raise e,
              mkState (history s ++ [UtcNow; UtcNow; PutItem item])
                (logged s ++ [info]))
    end.
Proof.
  intros Hb Hk item info. subst item info.
  unfold s3_record. rewrite Hb, Hk.
  rewrite !(bind_lift_ok _ _ _ _ eq_refl).
  unfold bind at 1. rewrite log_run.
  unfold try_except_ClientError, store_metadata, bind, lift, utcnow, put_item,
    perform, ret, log, metadata_item.
  cbn [py_replace_slash history logged].
  rewrite <- !app_assoc. cbn [app].
  match goal with
  | |- context [table_put_item W ?h ?i] =>
      destruct (table_put_item W h i) as [v|e]
  end; [reflexivity|].
  destruct (is_client_error e); [|reflexivity].
  cbn [history logged]. now rewrite <- app_assoc.
Qed.

(** X20: for a record with a bucket name and a string key, the turn asks
    the store to put exactly one item: its [id] is [s3-] followed by the key
    with dashes for slashes, its [timestamp] and [uploaded_at] come from two
    successive readings of the clock, and bucket and key are stored as
    given. *)
Theorem s3_record_stores_metadata record s bucket key :
  rbind (getitem record "s3") (fun s3 =>
    rbind (getitem s3 "bucket") (fun b => getitem b "name")) = Ok bucket ->
  rbind (getitem record "s3") (fun s3 =>
    rbind (getitem s3 "object") (fun o => getitem o "key")) = Ok (PStr key) ->
  puts (history (final (s3_record W record s)))
  = puts (history s)
    ++ [metadata_item bucket key (clock W (history s))
          (clock W (history s ++ [UtcNow]))].
Proof.
  intros Hb Hk. rewrite (s3_record_run record s bucket key Hb Hk).
  match goal with
  | |- context [table_put_item W ?h ?i] =>
      destruct (table_put_item W h i) as [v|e]
  end; [|destruct (is_client_error e)];
    cbn [final snd history]; rewrite puts_app; reflexivity.
Qed.

(** X21: a put that fails with an exception other than [ClientError] is
    not swallowed: the turn raises it, after the put was attempted. *)
Theorem s3_record_raises_other_errors record s bucket key e :
  rbind (getitem record "s3") (fun s3 =>
    rbind (getitem s3 "bucket") (fun b => getitem b "name")) = Ok bucket ->
  rbind (getitem record "s3") (fun s3 =>
    rbind (getitem s3 "object") (fun o => getitem o "key")) = Ok (PStr key) ->
  table_put_item W (history s ++ [UtcNow; UtcNow])
    (metadata_item bucket key (clock W (history s))
       (clock W (history s ++ [UtcNow]))) = Raise e ->
  is_client_error e = false ->
  outcome (s3_record W record s) = Raise e.
Proof.
  intros Hb Hk Hput Hother.
  rewrite (s3_record_run record s bucket key Hb Hk), Hput, Hother.
  reflexivity.
Qed.

(** X22: a record whose object key is not a string makes the turn raise
    [AttributeError] while the item is being built, before the clock is read
    or the store is called. *)
Theorem s3_record_needs_string_key record s bucket key :
  rbind (getitem record "s3") (fun s3 =>
    rbind (getitem s3 "bucket") (fun b => getitem b "name")) = Ok bucket ->
  rbind (getitem record "s3") (fun s3 =>
    rbind (getitem s3 "object") (fun o => getitem o "key")) = Ok key ->
  match key with PStr _ => False | _ => True end ->
  outcome (s3_record W record s) = Raise (no_attribute key "replace")
  /\ history (final (s3_record W record s)) = history s.
Proof.
  intros Hb Hk Hnot. unfold s3_record. rewrite Hb, Hk.
  rewrite !(bind_lift_ok _ _ _ _ eq_refl).
  unfold bind at 1 3. rewrite log_run.
  unfold try_except_ClientError, store_metadata, bind, lift.
  destruct key; try contradiction; split; reflexivity.
Qed.

(** The loop stops at the first turn that raises. *)
Lemma s3_loop_stops done record rest :
  forall s s1 e s2,
    s3_loop W done s = (Ok tt, s1) ->
    s3_record W record s1 = (Raise e, s2) ->
    s3_loop W (done ++ record :: rest) s = (Raise e, s2).
Proof.
  induction done as [|d done IH]; intros s s1 e s2 Hdone Hfail.
  - cbn in Hdone. unfold ret in Hdone. inversion Hdone; subst.
    cbn [app s3_loop]. now rewrite (bind_raise _ _ _ _ _ Hfail).
  - cbn [app s3_loop] in *. unfold bind at 1 in Hdone. unfold bind at 1.
    destruct (s3_record W d s) as [[v|e'] s'] eqn:E; [|discriminate].
    eapply IH; eauto.
Qed.

(** X23: when the turn of a record raises, the handler raises with it and
    the records after it are not looked at: the state is the one that turn
    left. *)
Theorem s3_batch_stops_at_raising_record
    event context s done record rest s1 e s2 :
  py_get event "Records" (PList []) = Ok (PList (done ++ record :: rest)) ->
  s3_loop W done s = (Ok tt, s1) ->
  s3_record W record s1 = (Raise e, s2) ->
  process_s3_event W event context s = (Raise e, s2).
Proof.
  intros Hrecords Hdone Hfail. unfold process_s3_event.
  rewrite Hrecords. cbn [rbind py_iter].
  rewrite (bind_lift_ok _ _ _ _ eq_refl).
  now rewrite (bind_raise _ _ _ _ _ (s3_loop_stops _ _ rest _ _ _ _ Hdone Hfail)).
Qed.

End StorageBatchEdges.

Lemma derived_id_collides_witness :
  Py.replace_slash "2024/a.jpg" <> "2024/a.jpg"
  /\ ("s3-" ++ Py.replace_slash (Py.replace_slash "2024/a.jpg")
      = "s3-" ++ Py.replace_slash "2024/a.jpg")%string.
Proof.
  apply (derived_id_collides "2024/a.jpg"). reflexivity.
Defined.

Lemma s3_record_stores_metadata_witness :
  Effects.puts
    (Effects.history
       (Effects.final
          (LambdaHandler.s3_record Scenarios.put_refused_world
             (Scenarios.s3_put "uploads" "2024/a.jpg") Effects.initial)))
  = [LambdaHandler.metadata_item (Py.PStr "uploads") "2024/a.jpg"
       Scenarios.a_moment Scenarios.a_moment].
Proof.
  exact (s3_record_stores_metadata Scenarios.put_refused_world
           (Scenarios.s3_put "uploads" "2024/a.jpg") Effects.initial
           (Py.PStr "uploads") "2024/a.jpg" eq_refl eq_refl).
Defined.

Lemma s3_record_raises_other_errors_witness :
  Effects.outcome
    (LambdaHandler.s3_record Scenarios.put_unreachable_world
       (Scenarios.s3_put "uploads" "b.csv") Effects.initial)
  = Py.Raise Scenarios.unreachable.
Proof.
  exact (s3_record_raises_other_errors Scenarios.put_unreachable_world
           (Scenarios.s3_put "uploads" "b.csv") Effects.initial
           (Py.PStr "uploads") "b.csv" Scenarios.unreachable
           eq_refl eq_refl eq_refl eq_refl).
Defined.

Lemma s3_record_needs_string_key_witness :
  Effects.history
    (Effects.final
       (LambdaHandler.s3_record Scenarios.quiet_world
          (Py.PDict [("s3", Py.PDict [("bucket", Py.PDict [("name", Py.PStr "uploads")]);
                                      ("object", Py.PDict [("key", Py.PInt 7)])])])
          Effects.initial)) = [].
Proof.
  exact (proj2 (s3_record_needs_string_key Scenarios.quiet_world
                  (Py.PDict [("s3", Py.PDict [("bucket", Py.PDict [("name", Py.PStr "uploads")]);
                                              ("object", Py.PDict [("key", Py.PInt 7)])])])
                  Effects.initial (Py.PStr "uploads") (Py.PInt 7)
                  eq_refl eq_refl I)).
Defined.

Lemma s3_batch_stops_at_raising_record_witness :
  Effects.puts
    (Effects.history
       (Effects.final
          (LambdaHandler.process_s3_event Scenarios.quiet_world
             (Py.PDict [("Records",
                         Py.PList [Scenarios.s3_put "uploads" "a.jpg";
                                   Py.PDict [("s3", Py.PDict [])];
                                   Scenarios.s3_put "uploads" "b.csv"])])
             Scenarios.lambda_context Effects.initial)))
  = [LambdaHandler.metadata_item (Py.PStr "uploads") "a.jpg"
       Scenarios.a_moment Scenarios.a_moment].
Proof.
  rewrite (s3_batch_stops_at_raising_record Scenarios.quiet_world
             (Py.PDict [("Records",
                         Py.PList [Scenarios.s3_put "uploads" "a.jpg";
                                   Py.PDict [("s3", Py.PDict [])];
                                   Scenarios.s3_put "uploads" "b.csv"])])
             Scenarios.lambda_context Effects.initial
             [Scenarios.s3_put "uploads" "a.jpg"]
             (Py.PDict [("s3", Py.PDict [])])
             [Scenarios.s3_put "uploads" "b.csv"]
             _ _ _ eq_refl eq_refl eq_refl).
  reflexivity.
Defined.

(* ===================================================================== *)
(** * More on the REST service *)
(* ===================================================================== *)

Section RestService.
Import Py Effects AppFlask.
#[local] Open Scope py_scope.
#[local] Open Scope list_scope.

Variable W : world.
Variable timestamp_text : datetime -> string.



(** X25: when the scan answers with a dict, the list operation returns 200
    with the items of the page, their number as [count], and the store's
    [LastEvaluatedKey] handed on unchanged as [last_evaluated_key] ([None]
    when the store gave none). *)
Theorem list_items_page r s n fields items :
  requested_limit r = Ok n ->
  table_scan W (history s) [("Limit", PInt (Z.min n 100))] = Ok (PDict fields) ->
  lookup "Items" fields = Some (PList items) ->
  outcome (list_items W r s)
  = Ok (PDict [("items", PList items);
               ("count", PInt (Z.of_nat (List.length items)));
               ("last_evaluated_key",
                match lookup "LastEvaluatedKey" fields with
                | Some key => key
                | None => PNone
                end);
               ("message", PStr "Use last_evaluated_key parameter for next page")],
        200).
Proof.
  intros Hlimit Hscan Hitems.
  unfold list_items, try_except_ClientError, outcome, bind, lift, scan,
    perform, ret.
  rewrite Hlimit. cbn [rbind history]. rewrite Hscan.
  cbn [py_get]. rewrite Hitems. reflexivity.
Qed.

(** X26: when the scan raises, a [ClientError] that carries
    [response['Error']['Message']] is answered 500 with the fixed [Database
    error]; a [ClientError] without it makes the handler's own log line
    raise; and any other exception leaves the handler as it is. *)
Theorem list_items_scan_failure r s n e :
  requested_limit r = Ok n ->
  table_scan W (history s) [("Limit", PInt (Z.min n 100))] = Raise e ->
  outcome (list_items W r s)
  = (if is_client_error e
     then match rbind (getitem (exn_response e) "Error")
                  (fun error => getitem error "Message") with
          | Ok _ => Ok (PDict [("error", PStr "Database error")], 500)
          | Raise e' => Raise e'
          end
     else Raise e).
Proof.
  intros Hlimit Hscan.
  unfold list_items, try_except_ClientError, outcome, bind, lift, scan,
    perform, ret, log.
  rewrite Hlimit. cbn [rbind history]. rewrite Hscan.
  destruct (is_client_error e); [|reflexivity].
  destruct (rbind (getitem (exn_response e) "Error")
              (fun error => getitem error "Message")); reflexivity.
Qed.

(** X27: a body that is empty (null, [{}], [[]], 0, the empty string) or
    that has no [name] is answered 400, and nothing is called or logged. *)
Theorem create_item_requires_name data s :
  truthy data = false \/ contains "name" data = Ok false ->
  create_item W timestamp_text (Ok data) s
  = (Ok (PDict [("error", PStr "Missing required field: name")], 400), s).
Proof.
  intros Hmissing.
  assert (H : (if truthy data
               then rbind (contains "name" data) (fun b => Ok (negb b))
               else Ok true) = Ok true).
  { destruct Hmissing as [->|Hc]; [reflexivity|].
    rewrite Hc. now destruct (truthy data). }
  unfold create_item, try_except_ClientError_Exception, bind, lift, ret.
  now rewrite H.
Qed.

(** X28: a dict body with a [name] whose put succeeds is answered 201 with
    the stored item, whatever the sink of metrics does: the item takes
    [name] from the body, [description] from the body or the empty string,
    and the store was asked for exactly that put. *)
Theorem create_item_created fields name s v :
  lookup "name" fields = Some name ->
  let t0 := clock W (history s) in
  let t1 := clock W (history s ++ [UtcNow]) in
  let t2 := clock W (history s ++ [UtcNow; UtcNow]) in
  let description :=
    match lookup "description" fields with Some d => d | None => PStr "" end in
  let item := new_item W timestamp_text t0 t1 t2 name description in
  table_put_item W (history s ++ [UtcNow; UtcNow; UtcNow]) item = Ok v ->
  let r := create_item W timestamp_text (Ok (PDict fields)) s in
  outcome r
  = Ok (PDict [("message", PStr "Item created successfully"); ("item", item)], 201)
  /\ puts (history (final r)) = puts (history s) ++ [item]
  /\ metrics (history (final r))
     = metrics (history s) ++ [("StartupPlatform", "ItemsCreated", 1)].
Proof.
  intros Hname t0 t1 t2 description item Hput r.
  assert (Hfields : truthy (PDict fields) = true).
  { destruct fields; [discriminate | reflexivity]. }
  subst r.
  unfold create_item, publish_metric, try_except_ClientError_Exception,
    try_except, outcome, final, bind, lift, ret, log, utcnow, put_item, perform.
  rewrite Hfields. cbn [contains rbind getitem py_get history logged].
  rewrite Hname. cbn [negb].
  rewrite <- !app_assoc. cbn [app].
  fold t0 t1 t2 description item. rewrite Hput.
  cbn [history logged].
  match goal with
  | |- context [cloudwatch_put_metric_data W ?h ?a ?b ?c ?d ?t] =>
      destruct (cloudwatch_put_metric_data W h a b c d t)
  end;
    cbn [fst snd history];
    (split; [reflexivity|]);
    rewrite <- ?app_assoc, !puts_app, !metrics_app; cbn;
    rewrite ?app_nil_r; split; reflexivity.
Qed.

(** X29: when the put of a valid body raises, the answer is 500 with a
    fixed body that depends on the class of the exception only: [Database
    error] for a [ClientError] carrying a message, [Internal server error]
    for any other class.  The text of the exception is not in the answer. *)
Theorem create_item_put_failure fields name s e :
  lookup "name" fields = Some name ->
  let item :=
    new_item W timestamp_text (clock W (history s))
      (clock W (history s ++ [UtcNow])) (clock W (history s ++ [UtcNow; UtcNow]))
      name (match lookup "description" fields with
            | Some d => d
            | None => PStr ""
            end) in
  table_put_item W (history s ++ [UtcNow; UtcNow; UtcNow]) item = Raise e ->
  outcome (create_item W timestamp_text (Ok (PDict fields)) s)
  = (if is_client_error e
     then match rbind (getitem (exn_response e) "Error")
                  (fun error => getitem error "Message") with
          | Ok _ => Ok (PDict [("error", PStr "Database error")], 500)
          | Raise e' => Raise e'
          end
     else Ok (PDict [("error", PStr "Internal server error")], 500)).
Proof.
  intros Hname item Hput.
  assert (Hfields : truthy (PDict fields) = true).
  { destruct fields; [discriminate | reflexivity]. }
  unfold create_item, try_except_ClientError_Exception, outcome, bind,
    lift, ret, log, utcnow, put_item, perform.
  rewrite Hfields. cbn [contains rbind getitem py_get history logged].
  rewrite Hname. cbn [negb].
  rewrite <- !app_assoc. cbn [app].
  fold item. rewrite Hput.
  destruct (is_client_error e); [|reflexivity].
  destruct (rbind (getitem (exn_response e) "Error")
              (fun error => getitem error "Message")); reflexivity.
Qed.


End RestService.


Lemma list_items_page_witness :
  Effects.outcome
    (AppFlask.list_items
       (Scenarios.store_world Scenarios.three_expired None None None)
       (Scenarios.list_request "500" None) Effects.initial)
  = Py.Ok (Py.PDict [("items", Py.PList Scenarios.three_expired);
                     ("count", Py.PInt 3);
                     ("last_evaluated_key", Py.PNone);
                     ("message",
                      Py.PStr "Use last_evaluated_key parameter for next page")],
           200).
Proof.
  exact (list_items_page
           (Scenarios.store_world Scenarios.three_expired None None None)
           (Scenarios.list_request "500" None) Effects.initial 500
           [("Items", Py.PList Scenarios.three_expired)] Scenarios.three_expired
           eq_refl eq_refl eq_refl).
Defined.

Lemma list_items_scan_failure_witness :
  Effects.outcome
    (AppFlask.list_items Scenarios.scan_refused_world
       (Scenarios.list_request "25" None) Effects.initial)
  = Py.Ok (Py.PDict [("error", Py.PStr "Database error")], 500).
Proof.
  exact (list_items_scan_failure Scenarios.scan_refused_world
           (Scenarios.list_request "25" None) Effects.initial 25
           (Scenarios.throttled "Scan") eq_refl eq_refl).
Defined.

Lemma create_item_requires_name_witness :
  AppFlask.create_item Scenarios.quiet_world Scenarios.float_text
    (Py.Ok (Py.PDict [("description", Py.PStr "x")])) Effects.initial
  = (Py.Ok (Py.PDict [("error", Py.PStr "Missing required field: name")], 400),
     Effects.initial).
Proof.
  apply (create_item_requires_name Scenarios.quiet_world Scenarios.float_text
           (Py.PDict [("description", Py.PStr "x")]) Effects.initial).
  right. reflexivity.
Defined.

Lemma create_item_created_witness :
  Effects.outcome
    (AppFlask.create_item Scenarios.metrics_down_world Scenarios.float_text
       (Py.Ok (Py.PDict [("name", Py.PStr "widget")])) Effects.initial)
  = Py.Ok (Py.PDict [("message", Py.PStr "Item created successfully");
                     ("item",
                      AppFlask.new_item Scenarios.metrics_down_world
                        Scenarios.float_text Scenarios.a_moment
                        Scenarios.a_moment Scenarios.a_moment
                        (Py.PStr "widget") (Py.PStr ""))],
           201).
Proof.
  exact (proj1 (create_item_created Scenarios.metrics_down_world
                  Scenarios.float_text [("name", Py.PStr "widget")]
                  (Py.PStr "widget") Effects.initial (Py.PDict [])
                  eq_refl eq_refl)).
Defined.

Lemma create_item_put_failure_witness :
  Effects.outcome
    (AppFlask.create_item Scenarios.put_unreachable_world Scenarios.float_text
       (Py.Ok (Py.PDict [("name", Py.PStr "widget")])) Effects.initial)
  = Py.Ok (Py.PDict [("error", Py.PStr "Internal server error")], 500).
Proof.
  exact (create_item_put_failure Scenarios.put_unreachable_world
           Scenarios.float_text [("name", Py.PStr "widget")]
           (Py.PStr "widget") Effects.initial Scenarios.unreachable
           eq_refl eq_refl).
Defined.
